(** * rainsoon: the resolution-and-fallback pipeline of [rainsoon_mcp.py]

    A shallow embedding of [_get_public_ip], [_fetch_precip_prob] and
    [check_for_rain], together with the parts of the Python runtime and of
    the [requests] and [geocoder] libraries they rely on.

    Network calls are replies of a deterministic [World] to the history of
    calls made so far; every call is logged in a chronological trace, which
    is the only state the program threads. *)

From Stdlib Require Import ZArith NArith String Ascii List Bool Lia.
From Stdlib Require Import DecimalString DecimalPos DecimalZ.
From stdpp Require Import base option list countable gmap.

Local Open Scope Z_scope.

(** ** Python strings *)

(** A Python [str] is a sequence of Unicode code points. *)
Abbreviation str := (list N).

(** A literal of the source; every literal of the program is ASCII, so a
    character's code is its code point. *)
Definition lit (s : string) : str :=
  List.map N_of_ascii (list_ascii_of_string s).
Arguments lit s%_string : simpl never.

(** [Py_UNICODE_ISSPACE]: the characters [str.strip()] removes. *)
Definition py_isspace (c : N) : bool :=
  ((9 <=? c) && (c <=? 13) || (28 <=? c) && (c <=? 32)
   || (c =? 133) || (c =? 160) || (c =? 5760)
   || (8192 <=? c) && (c <=? 8202)
   || (c =? 8232) || (c =? 8233) || (c =? 8239) || (c =? 8287)
   || (c =? 12288))%N.

Fixpoint lstrip (s : str) : str :=
  match s with
  | c :: s' => if py_isspace c then lstrip s' else s
  | [] => []
  end.

Definition rstrip (s : str) : str := rev (lstrip (rev s)).

(** [s.strip()] *)
Definition strip (s : str) : str := rstrip (lstrip s).

(** [str(z)] for a Python [int]. *)
Definition str_of_int (z : Z) : str :=
  lit (NilZero.string_of_int (Z.to_int z)).

(** The characters of a decimal numeral: the minus sign and the digits. *)
Definition decimal_char (c : N) : Prop := (c = 45 \/ 48 <= c <= 57)%N.

(** Truth value of a [str]: [if s:]. *)
Definition nonempty (s : str) : bool :=
  match s with [] => false | _ :: _ => true end.

(** ** Exceptions *)

(** Every exception of the model is an instance of [Exception]; what the
    handlers of the program tell apart is whether it is a
    [requests.RequestException] (or a subclass such as [HTTPError],
    [ConnectionError], [Timeout]). [BuiltinError] stands for the exceptions
    the interpreter raises on an ill-typed operation ([TypeError],
    [AttributeError], [KeyError], [ValueError], [OverflowError]). *)
Inductive exn_class :=
  | RequestException
  | RuntimeError
  | BuiltinError
  | OtherException.

(** An exception: its class and [str(e)]. *)
Record exn := Exn { exn_cls : exn_class; exn_str : str }.

(** [isinstance(e, requests.RequestException)] *)
Definition is_request_exception (e : exn) : bool :=
  match exn_cls e with RequestException => true | _ => false end.

Inductive result (A : Type) :=
  | Ok (a : A)
  | Raise (e : exn).
Arguments Ok {A} a.
Arguments Raise {A} e.

(** ** The Python runtime *)

Inductive pytype := TNone | TBool | TInt | TFloat | TStr | TList | TDict.

(** Ill-typed operations on JSON data; the wording of their messages
    belongs to the interpreter. *)
Inductive fault :=
  | NoAttribute (t : pytype) (attr : str)
  | NotSubscriptable (t : pytype)
  | KeyMissing
  | IndexOutOfRange (t : pytype)
  | IntArgument (t : pytype)
  | SliceOfDict.

(** What the program takes from the interpreter: floating-point numbers
    with their formatting, truth value and conversion to [int], the parsing
    of [int(s)] for a string, and the messages of built-in exceptions. *)
Class PyRuntime := {
  float : Type;
  float_repr : float -> str;
  float_truth : float -> bool;
  float_int : float -> Z + str;
  int_of_text : str -> Z + str;
  fault_text : fault -> str;
}.

Section Model.
Context `{RT : PyRuntime}.

(** ** Python values *)

#[local] Set Warnings "-register-all".

(** The values that occur in JSON documents and in the result of the tool. *)
Inductive value :=
  | VNone
  | VBool (b : bool)
  | VInt (z : Z)
  | VFloat (f : float)
  | VStr (s : str)
  | VList (l : list value)
  | VDict (d : gmap str value).

(** A Python [dict] with string keys. *)
Abbreviation dict := (gmap str value).

Definition type_of (v : value) : pytype :=
  match v with
  | VNone => TNone
  | VBool _ => TBool
  | VInt _ => TInt
  | VFloat _ => TFloat
  | VStr _ => TStr
  | VList _ => TList
  | VDict _ => TDict
  end.

(** [bool(v)], as in [if not probs] and [if times]. *)
Definition truthy (v : value) : bool :=
  match v with
  | VNone => false
  | VBool b => b
  | VInt z => negb (z =? 0)
  | VFloat f => float_truth f
  | VStr s => nonempty s
  | VList l => match l with [] => false | _ :: _ => true end
  | VDict d => negb (bool_decide (d = ∅))
  end.

Definition builtin_error (f : fault) : exn := Exn BuiltinError (fault_text f).

(** [v.get(key, default)]: defined on dictionaries only. *)
Definition py_get (v : value) (key : str) (default : value) : result value :=
  match v with
  | VDict d => Ok (match d !! key with Some x => x | None => default end)
  | _ => Raise (builtin_error (NoAttribute (type_of v) (lit "get")))
  end.

(** [v[0]]; the keys of a JSON object are strings, so [0] is never one. *)
Definition py_first (v : value) : result value :=
  match v with
  | VList (x :: _) => Ok x
  | VStr (c :: _) => Ok (VStr [c])
  | VList [] | VStr [] => Raise (builtin_error (IndexOutOfRange (type_of v)))
  | VDict _ => Raise (builtin_error KeyMissing)
  | _ => Raise (builtin_error (NotSubscriptable (type_of v)))
  end.

(** [int(v)] *)
Definition py_int (v : value) : result Z :=
  match v with
  | VInt z => Ok z
  | VBool b => Ok (Z.b2z b)
  | VFloat f =>
      match float_int f with inl z => Ok z | inr m => Raise (Exn BuiltinError m) end
  | VStr s =>
      match int_of_text s with inl z => Ok z | inr m => Raise (Exn BuiltinError m) end
  | _ => Raise (builtin_error (IntArgument (type_of v)))
  end.

(** [v[:3]] *)
Definition py_slice3 (v : value) : result value :=
  match v with
  | VList l => Ok (VList (take 3 l))
  | VStr s => Ok (VStr (take 3 s))
  | VDict _ => Raise (builtin_error SliceOfDict)
  | _ => Raise (builtin_error (NotSubscriptable (type_of v)))
  end.

(** ** The libraries *)

(** A [requests.Response]: the fields and methods the program uses.
    [resp_json] is the outcome of [r.json()]. *)
Record response := {
  status_code : Z;
  reason : str;
  resp_url : str;
  text : str;
  resp_json : result value;
}.

(** [Response.raise_for_status]: an [HTTPError] for a status between 400
    and 599, nothing otherwise. *)
Definition http_error_msg (r : response) : str :=
  if (400 <=? status_code r) && (status_code r <? 500) then
    str_of_int (status_code r) ++ lit " Client Error: " ++ reason r
      ++ lit " for url: " ++ resp_url r
  else if (500 <=? status_code r) && (status_code r <? 600) then
    str_of_int (status_code r) ++ lit " Server Error: " ++ reason r
      ++ lit " for url: " ++ resp_url r
  else [].

Definition raise_for_status (r : response) : result unit :=
  if nonempty (http_error_msg r)
  then Raise (Exn RequestException (http_error_msg r))
  else Ok tt.

(** What [geocoder.ip] returns: [g.ok], [g.latlng] and [g.city]. [latlng] is
    the list [[lat, lng]], or an empty list or [None] when the provider has
    no coordinates; both falsy values are [None] here. *)
Record geo := {
  ok : bool;
  latlng : option (float * float);
  city : option str;
}.

(** ** The world *)

(** The two kinds of external call. *)
Inductive call :=
  | HttpGet (url : str) (timeout : Z)
  | GeocoderIp (ip : str).

(** A deterministic environment: what each call answers, given the calls
    made before it. A library call returns or raises. *)
Record World := {
  requests_get_reply : list call -> str -> Z -> result response;
  geocoder_ip_reply : list call -> str -> result geo;
}.

(** ** Computations *)

(** A computation reads the world, extends the trace of calls, and returns
    or raises. *)
Definition M (A : Type) : Type := World -> list call -> result A * list call.

Definition ret {A} (a : A) : M A := fun _ tr => (Ok a, tr).

Definition raise {A} (e : exn) : M A := fun _ tr => (Raise e, tr).

Definition bind {A B} (m : M A) (k : A -> M B) : M B :=
  fun W tr =>
    match m W tr with
    | (Ok a, tr') => k a W tr'
    | (Raise e, tr') => (Raise e, tr')
    end.

(** A pure step that may raise. *)
Definition lift {A} (r : result A) : M A := fun _ tr => (r, tr).

(** [try: m  except C as e: h e], where [handles] decides
    [isinstance(e, C)]. *)
Definition try_except {A} (m : M A) (handles : exn -> bool) (h : exn -> M A)
  : M A :=
  fun W tr =>
    match m W tr with
    | (Ok a, tr') => (Ok a, tr')
    | (Raise e, tr') => if handles e then h e W tr' else (Raise e, tr')
    end.

(** [except Exception] *)
Definition any_exception (e : exn) : bool := true.

(** [requests.get(url, timeout=t)] *)
Definition requests_get (url : str) (t : Z) : M response :=
  fun W tr => (requests_get_reply W tr url t, tr ++ [HttpGet url t]).

(** [geocoder.ip(ip)] *)
Definition geocoder_ip (ip : str) : M geo :=
  fun W tr => (geocoder_ip_reply W tr ip, tr ++ [GeocoderIp ip]).

Notation "x <- m ;; k" := (bind m (fun x => k))
  (at level 100, m at next level, right associativity,
   format "'[v' x  <-  m  ;;  '/' k ']'").

(** ** The program *)

Definition endpoints : list str :=
  [ lit "https://api.ipify.org";
    lit "https://ipinfo.io/ip";
    lit "https://icanhazip.com" ].

(** The body of the loop of [_get_public_ip] for one [url]: [Some ip] when
    the function returns [ip], [None] when the loop goes on. *)
Definition try_endpoint (url : str) : M (option str) :=
  try_except
    (r <- requests_get url 5 ;;
     let ip := strip (text r) in
     if nonempty ip then ret (Some ip) else ret None)
    is_request_exception
    (fun _ => ret None).

Definition discovery_error : exn :=
  Exn RuntimeError (lit "Could not determine public IP from fallback services.").

(** [for url in urls: ...] followed by the final [raise]. *)
Fixpoint for_endpoints (urls : list str) : M str :=
  match urls with
  | [] => raise discovery_error
  | url :: rest =>
      o <- try_endpoint url ;;
      match o with
      | Some ip => ret ip
      | None => for_endpoints rest
      end
  end.

Definition _get_public_ip : M str := for_endpoints endpoints.

(** What [_fetch_precip_prob] returns: the dictionary
    [{"prob": ..., "times": ...}]. *)
Record sample := { prob : Z; times : value }.

Definition forecast_url (lat lng : float) : str :=
  lit "https://api.open-meteo.com/v1/forecast"
    ++ lit "?latitude=" ++ float_repr lat ++ lit "&longitude=" ++ float_repr lng
    ++ lit "&hourly=precipitation_probability"
    ++ lit "&forecast_days=1"
    ++ lit "&timezone=auto".

Definition missing_probabilities : exn :=
  Exn RuntimeError (lit "Weather data missing precipitation probabilities.").

(** Lines 58 to 63: from the parsed document to the sample. *)
Definition read_sample (data : value) : result sample :=
  match py_get data (lit "hourly") (VDict ∅) with
  | Raise e => Raise e
  | Ok hourly =>
  match py_get hourly (lit "precipitation_probability") (VList []) with
  | Raise e => Raise e
  | Ok probs =>
  match py_get hourly (lit "time") (VList []) with
  | Raise e => Raise e
  | Ok times =>
  if negb (truthy probs) then Raise missing_probabilities else
  match py_first probs with
  | Raise e => Raise e
  | Ok p0 =>
  match py_int p0 with
  | Raise e => Raise e
  | Ok p =>
  if truthy times then
    match py_slice3 times with
    | Raise e => Raise e
    | Ok ts => Ok {| prob := p; times := ts |}
    end
  else Ok {| prob := p; times := VList [] |}
  end end end end end.

Definition _fetch_precip_prob (lat lng : float) : M sample :=
  r <- requests_get (forecast_url lat lng) 10 ;;
  _ <- lift (raise_for_status r) ;;
  data <- lift (resp_json r) ;;
  lift (read_sample data).

(** [g.city or "your area"] *)
Definition city_or_placeholder (c : option str) : str :=
  match c with
  | Some c => if nonempty c then c else lit "your area"
  | None => lit "your area"
  end.

Definition geolocation_error (target_ip : str) : exn :=
  Exn RuntimeError (lit "Could not geolocate IP " ++ target_ip ++ lit ".").

(** The local function [geolocate] of [check_for_rain]. *)
Definition geolocate (target_ip : str) : M (float * float * str) :=
  g <- geocoder_ip target_ip ;;
  match ok g, latlng g with
  | true, Some (lat, lng) => ret (lat, lng, city_or_placeholder (city g))
  | _, _ => raise (geolocation_error target_ip)
  end.

(** [{"error": msg}] *)
Definition error_record (msg : str) : dict := {[ lit "error" := VStr msg ]}.

(** The message of a success record. *)
Definition message (p threshold : Z) (city : str) : str :=
  (if p >? threshold then lit "Yes" else lit "No")
    ++ lit ", " ++ str_of_int p ++ lit "% chance of rain soon in " ++ city
    ++ lit ".".

(** The dictionary built at lines 113 to 126. *)
Definition success_record (ip city : str) (lat lng : float) (threshold : Z)
  (wx : sample) : dict :=
  let p := prob wx in
  let result : dict :=
    <[ lit "message" := VStr (message p threshold city) ]>
    (<[ lit "threshold" := VInt threshold ]>
    (<[ lit "precipitation_chance" := VInt p ]>
    (<[ lit "rain" := VBool (p >? threshold) ]>
    (<[ lit "lng" := VFloat lng ]>
    (<[ lit "lat" := VFloat lat ]>
    (<[ lit "location" := VStr city ]>
    (<[ lit "ip" := VStr ip ]> ∅))))))) in
  if truthy (times wx)
  then <[ lit "hour_sample" := times wx ]> result
  else result.

(** Step 3 of [check_for_rain]: the weather lookup, lines 110 to 131. *)
Definition weather_lookup (ip city : str) (lat lng : float) (threshold : Z)
  : M dict :=
  try_except
    (wx <- _fetch_precip_prob lat lng ;;
     ret (success_record ip city lat lng threshold wx))
    any_exception
    (fun e =>
       (* the first clause that matches: [except requests.RequestException],
          then [except Exception] *)
       if is_request_exception e
       then ret (error_record (lit "Failed to fetch weather data: " ++ exn_str e))
       else ret (error_record (exn_str e))).

(** [ip or ""] for an argument that is a string or [None]. *)
Definition or_empty (ip : option str) : str :=
  match ip with
  | Some s => if nonempty s then s else []
  | None => []
  end.

(** [check_for_rain(ip, threshold)]. A [return] inside one of the first two
    steps is [inr] of the returned dictionary; [inl] carries the variables
    the next step reads. *)
Definition check_for_rain (ip : option str) (threshold : Z) : M dict :=
  let ip := strip (or_empty ip) in
  (* 1) an IP, auto-detected if not provided *)
  s1 <- try_except
    (if negb (nonempty ip)
     then (auto <- _get_public_ip ;; ret (inl (true, auto)))
     else ret (inl (false, ip)))
    any_exception
    (fun e =>
       ret (inr (error_record
                   (lit "Could not determine public IP: " ++ exn_str e)))) ;;
  match s1 with
  | inr early => ret early
  | inl (tried_autodetect, ip) =>
  (* 2) geolocation, with one fallback to the auto-detected IP *)
  s2 <- try_except
    (loc <- geolocate ip ;; ret (inl (ip, loc)))
    any_exception
    (fun first_err =>
       if negb tried_autodetect then
         try_except
           (auto_ip <- _get_public_ip ;;
            loc <- geolocate auto_ip ;;
            ret (inl (auto_ip, loc)))
           any_exception
           (fun second_err =>
              ret (inr (error_record
                          (exn_str first_err
                             ++ lit "; fallback to public IP failed: "
                             ++ exn_str second_err))))
       else ret (inr (error_record (exn_str first_err)))) ;;
  match s2 with
  | inr early => ret early
  | inl (ip, (lat, lng, city)) =>
  (* 3) weather lookup *)
  weather_lookup ip city lat lng threshold
  end end.

(** The prompt [rainsoon(ip, threshold)], lines 135 to 147: a newline, the
    instruction with [ip] between double quotes and [int(threshold)] in
    decimal, a newline, the second sentence and a final newline. *)
Definition rainsoon (ip : str) (threshold : Z) : str :=
  [10%N] ++ lit "Call the tool `check_for_rain` with ip=" ++ [34%N] ++ ip
    ++ [34%N] ++ lit " and threshold=" ++ str_of_int threshold ++ lit "."
    ++ [10%N] ++ lit "Return ONLY the tool's raw JSON (no commentary)."
    ++ [10%N].

(** ** Observations on traces *)

(** The requests of a discovery that got as far as its [k]-th endpoint. *)
Definition sweep (k : nat) : list call :=
  List.map (fun u => HttpGet u 5) (take k endpoints).

(** The reply to the [k]-th endpoint, asked after the ones before it. *)
Definition reply_at (W : World) (tr : list call) (k : nat) : result response :=
  requests_get_reply W (tr ++ sweep k) (nth k endpoints []) 5.

(** An endpoint is passed over when the request fails with a
    [RequestException] or its trimmed text is empty. *)
Definition skipped (o : result response) : bool :=
  match o with
  | Raise e => is_request_exception e
  | Ok r => negb (nonempty (strip (text r)))
  end.

(** The IPs handed to the geolocation provider, in order. *)
Definition geolocations (tr : list call) : list str :=
  omap (fun c => match c with GeocoderIp ip => Some ip | _ => None end) tr.

(** The URLs requested from the IP discovery endpoints, in order. *)
Definition discovery_requests (tr : list call) : list str :=
  omap (fun c => match c with
                 | HttpGet u t => if t =? 5 then Some u else None
                 | _ => None
                 end) tr.

(** The forecast requests, in order. *)
Definition forecast_requests (tr : list call) : list str :=
  omap (fun c => match c with
                 | HttpGet u t => if t =? 10 then Some u else None
                 | _ => None
                 end) tr.

(** The calls of a run before its forecast request: the geolocations
    [pre], the requests of a discovery up to its [k]-th endpoint, the
    geolocations [post]. *)
Definition resolution_trace (pre : list str) (k : nat) (post : list str)
  : list call :=
  List.map GeocoderIp pre ++ sweep k ++ List.map GeocoderIp post.

(** ** The two shapes of a result *)

(** [{"error": msg}] and nothing else. *)
Definition is_error_record (d : dict) : Prop :=
  exists msg, d = {[ lit "error" := VStr msg ]}.

(** The eight fields of a success, each of its type, no ["error"], and no
    other key than ["hour_sample"]. *)
Definition is_success_record (d : dict) : Prop :=
  d !! lit "error" = None
  /\ (exists ip, d !! lit "ip" = Some (VStr ip))
  /\ (exists city, d !! lit "location" = Some (VStr city))
  /\ (exists lat, d !! lit "lat" = Some (VFloat lat))
  /\ (exists lng, d !! lit "lng" = Some (VFloat lng))
  /\ (exists b, d !! lit "rain" = Some (VBool b))
  /\ (exists p, d !! lit "precipitation_chance" = Some (VInt p))
  /\ (exists t, d !! lit "threshold" = Some (VInt t))
  /\ (exists m, d !! lit "message" = Some (VStr m))
  /\ (forall k, is_Some (d !! k) ->
        k ∈ [lit "ip"; lit "location"; lit "lat"; lit "lng"; lit "rain";
             lit "precipitation_chance"; lit "threshold"; lit "message";
             lit "hour_sample"]).

(** The document of a forecast has no hourly probabilities: the ["hourly"]
    object or its ["precipitation_probability"] entry is absent, or the
    sequence is empty. *)
Definition probabilities_missing (data : value) : Prop :=
  exists dd, data = VDict dd /\
    (dd !! lit "hourly" = None \/
     exists hh, dd !! lit "hourly" = Some (VDict hh) /\
       (hh !! lit "precipitation_probability" = None \/
        hh !! lit "precipitation_probability" = Some (VList []))).

End Model.

Abbreviation dict := (gmap str value).

Notation "x <- m ;; k" := (bind m (fun x => k))
  (at level 100, m at next level, right associativity,
   format "'[v' x  <-  m  ;;  '/' k ']'").

(** ** A concrete runtime and scripted worlds *)

Module Demo.

(** A small runtime for running the program on examples: whole-number
    floats, printed with one decimal. *)
#[export] Instance runtime : PyRuntime := {|
  float := Z;
  float_repr z := str_of_int z ++ lit ".0";
  float_truth z := negb (z =? 0);
  float_int z := inl z;
  int_of_text s := inr (lit "invalid literal for int() with base 10");
  fault_text f :=
    match f with
    | NoAttribute _ attr => lit "object has no attribute " ++ attr
    | NotSubscriptable _ => lit "object is not subscriptable"
    | KeyMissing => lit "0"
    | IndexOutOfRange _ => lit "index out of range"
    | IntArgument _ => lit "int() argument must be a string or a number"
    | SliceOfDict => lit "unhashable type: 'slice'"
    end;
|}.

Definition is_http (c : call) : bool :=
  match c with HttpGet _ _ => true | GeocoderIp _ => false end.

(** The world that answers the n-th HTTP request with the n-th element of
    [hs] and the n-th geolocation with the n-th element of [gs]; a request
    past the end of its script fails. *)
Definition scripted (hs : list (result response)) (gs : list (result geo))
  : World := {|
  requests_get_reply tr _ _ :=
    nth (length (filter is_http tr)) hs
      (Raise (Exn RequestException (lit "connection refused")));
  geocoder_ip_reply tr _ :=
    nth (length (filter (fun c => negb (is_http c)) tr)) gs
      (Raise (Exn OtherException (lit "no reply")));
|}.

(** A plain-text reply with status 200. *)
Definition plain (body : string) : result response :=
  Ok {| status_code := 200; reason := lit "OK"; resp_url := [];
        text := lit body;
        resp_json := Raise (Exn RequestException (lit "Expecting value")) |}.

(** A JSON reply with the given status. *)
Definition json_reply (status : Z) (data : value) : result response :=
  Ok {| status_code := status; reason := lit "OK"; resp_url := [];
        text := []; resp_json := Ok data |}.

(** A forecast document with the given hourly sequences. *)
Definition forecast (probs times : list value) : value :=
  VDict {[ lit "hourly" :=
             VDict (<[ lit "time" := VList times ]>
                    {[ lit "precipitation_probability" := VList probs ]}) ]}.

Definition located (lat lng : Z) (c : string) : result geo :=
  Ok {| ok := true; latlng := Some (lat, lng); city := Some (lit c) |}.

Definition unlocated : result geo :=
  Ok {| ok := false; latlng := None; city := None |}.

Definition timed_out : result response :=
  Raise (Exn RequestException (lit "Read timed out.")).

(** The request for the forecast at (10.0, 20.0). *)
Definition forecast_request : call :=
  HttpGet (lit "https://api.open-meteo.com/v1/forecast?latitude=10.0&longitude=20.0&hourly=precipitation_probability&forecast_days=1&timezone=auto") 10.

(** Blank [ip]; the first endpoint answers, the location is found, the
    chance is 45. *)
Definition sunny_path : World :=
  scripted [plain "1.2.3.4"; json_reply 200 (forecast [VInt 45] [])]
           [located 10 20 "Testville"].

(** A supplied [ip] that is not located; the discovered one is. *)
Definition switched_ip : World :=
  scripted [plain "9.9.9.9"; json_reply 200 (forecast [VInt 10; VInt 80] [])]
           [unlocated; located 10 20 "Quad City"].

(** The chance equals the threshold; four hourly times. *)
Definition boundary : World :=
  scripted [json_reply 200
              (forecast [VInt 20; VInt 30]
                 [VStr (lit "2024-05-01T00:00"); VStr (lit "2024-05-01T01:00");
                  VStr (lit "2024-05-01T02:00"); VStr (lit "2024-05-01T03:00")])]
           [located 10 20 "Testville"].

(** No endpoint answers. *)
Definition offline : World := scripted [] [].

(** The first endpoint times out, the second answers blanks, the third
    answers an address followed by a newline; the address is not located. *)
Definition third_endpoint : World :=
  scripted [timed_out;
            Ok {| status_code := 200; reason := lit "OK"; resp_url := [];
                  text := lit "  " ++ [10%N];
                  resp_json := Raise (Exn RequestException (lit "Expecting value")) |};
            Ok {| status_code := 200; reason := lit "OK"; resp_url := [];
                  text := lit "203.0.113.7" ++ [10%N];
                  resp_json := Raise (Exn RequestException (lit "Expecting value")) |}]
           [unlocated].

(** The forecast service answers 503. *)
Definition unavailable : World :=
  scripted [Ok {| status_code := 503; reason := lit "Service Unavailable";
                  resp_url := lit "https://api.open-meteo.com/v1/forecast";
                  text := []; resp_json := Ok VNone |}]
           [located 10 20 "Testville"].

(** The forecast service answers 300 with a forecast document. *)
Definition choices_reply : response :=
  {| status_code := 300; reason := lit "Multiple Choices";
     resp_url := lit "https://api.open-meteo.com/v1/forecast";
     text := []; resp_json := Ok (forecast [VInt 45] []) |}.

Definition multiple_choices : World :=
  scripted [Ok choices_reply] [located 10 20 "Testville"].

(** The forecast document has an ["hourly"] object without
    probabilities. *)
Definition no_probabilities : World :=
  scripted [json_reply 200 (VDict {[ lit "hourly" := VDict ∅ ]})]
           [located 10 20 "Testville"].

(** The first endpoint times out; the request to the second fails with an
    exception that is not a [RequestException]. *)
Definition invalid_url : exn := Exn OtherException (lit "Failed to parse URL").

Definition crashing : World := scripted [timed_out; Raise invalid_url] [].

(** The first hourly probability of the forecast is null. *)
Definition null_probability : World :=
  scripted [json_reply 200 (forecast [VNone; VInt 3] [])]
           [located 10 20 "Testville"].

(** The forecast service answers a page that is not JSON. *)
Definition not_json : World :=
  scripted [plain "<html>Bad gateway</html>"] [located 10 20 "Testville"].

(** The forecast service answers a JSON list. *)
Definition json_list : World :=
  scripted [json_reply 200 (VList [VInt 45])] [located 10 20 "Testville"].

(** The hourly object of the world [boundary]. *)
Definition boundary_hourly : dict :=
  <[ lit "time" :=
       VList [VStr (lit "2024-05-01T00:00"); VStr (lit "2024-05-01T01:00");
              VStr (lit "2024-05-01T02:00"); VStr (lit "2024-05-01T03:00")] ]>
  {[ lit "precipitation_probability" := VList [VInt 20; VInt 30] ]}.

(** The record of a success at Testville for the IP 8.8.8.8. *)
Definition testville (threshold p : Z) (ts : value) : dict :=
  success_record (lit "8.8.8.8") (lit "Testville") 10 20 threshold
    {| prob := p; times := ts |}.

End Demo.

(** * Properties *)

Section Properties.
Context `{RT : PyRuntime}.
Implicit Types (W : World) (tr : list call) (e : exn) (d : dict).

(** ** Strings *)

Lemma nonempty_true (s : str) : nonempty s = true <-> s <> [].
Proof. destruct s; simpl; split; congruence. Qed.

Lemma lstrip_blank (s : str) :
  Forall (fun c => py_isspace c = true) s -> lstrip s = [].
Proof.
  induction 1 as [|c s Hc _ IH]; simpl; [reflexivity|].
  rewrite Hc. exact IH.
Qed.

Lemma strip_blank (s : str) :
  Forall (fun c => py_isspace c = true) s -> strip s = [].
Proof. intros H. unfold strip. rewrite (lstrip_blank s H). reflexivity. Qed.

Example strip_example :
  strip (lit "  1.2.3.4 " ++ [10%N]) = lit "1.2.3.4"
  /\ strip (lit " a b ") = lit "a b"
  /\ strip ([160; 8195; 12288]%N) = [].
Proof. repeat split. Qed.

Example str_of_int_example :
  str_of_int 45 = lit "45" /\ str_of_int 0 = lit "0"
  /\ str_of_int (-7) = lit "-7".
Proof. repeat split. Qed.

(** ** Running the steps *)

Lemma run_ok_inj {A} (a b : A) tr tr' :
  (Ok a, tr) = (Ok b, tr') -> a = b /\ tr = tr'.
Proof. intros H. injection H. auto. Qed.

Lemma try_endpoint_run W tr url :
  try_endpoint url W tr =
  (match requests_get_reply W tr url 5 with
   | Ok r =>
       Ok (if nonempty (strip (text r)) then Some (strip (text r)) else None)
   | Raise e => if is_request_exception e then Ok None else Raise e
   end, tr ++ [HttpGet url 5]).
Proof.
  unfold try_endpoint, try_except, bind, requests_get, ret.
  destruct (requests_get_reply W tr url 5) as [r|e].
  - destruct (nonempty (strip (text r))); reflexivity.
  - destruct (is_request_exception e); reflexivity.
Qed.

Lemma try_endpoint_skipped W tr url :
  skipped (requests_get_reply W tr url 5) = true ->
  try_endpoint url W tr = (Ok None, tr ++ [HttpGet url 5]).
Proof.
  rewrite try_endpoint_run. unfold skipped.
  destruct (requests_get_reply W tr url 5) as [r|e]; intros H.
  - apply negb_true_iff in H. rewrite H. reflexivity.
  - rewrite H. reflexivity.
Qed.

Lemma try_endpoint_answer W tr url r :
  requests_get_reply W tr url 5 = Ok r ->
  strip (text r) <> [] ->
  try_endpoint url W tr = (Ok (Some (strip (text r))), tr ++ [HttpGet url 5]).
Proof.
  intros Hr Hne. rewrite try_endpoint_run, Hr.
  apply nonempty_true in Hne. rewrite Hne. reflexivity.
Qed.

Lemma for_endpoints_cons W tr url rest :
  for_endpoints (url :: rest) W tr =
  match try_endpoint url W tr with
  | (Ok (Some ip), tr') => (Ok ip, tr')
  | (Ok None, tr') => for_endpoints rest W tr'
  | (Raise e, tr') => (Raise e, tr')
  end.
Proof.
  simpl. unfold bind at 1.
  destruct (try_endpoint url W tr) as [[[ip|]|e] tr']; reflexivity.
Qed.

(** A discovery only adds requests to its endpoints, each at most once and
    in the order of the list. *)
Lemma for_endpoints_trace urls W tr r tr' :
  for_endpoints urls W tr = (r, tr') ->
  exists k, (k <= length urls)%nat /\ (urls <> [] -> (1 <= k)%nat) /\
            tr' = tr ++ List.map (fun u => HttpGet u 5) (take k urls).
Proof.
  revert tr. induction urls as [|url rest IH]; intros tr H.
  - simpl in H. unfold raise in H. injection H as _ <-.
    exists 0%nat. simpl. rewrite app_nil_r. repeat split; [lia | congruence].
  - rewrite for_endpoints_cons, try_endpoint_run in H.
    destruct (requests_get_reply W tr url 5) as [resp|e].
    + destruct (nonempty (strip (text resp))).
      * injection H as _ <-. exists 1%nat. simpl. repeat split; lia.
      * apply IH in H as (k & Hk & _ & ->). exists (S k). simpl.
        rewrite <- app_assoc. repeat split; lia.
    + destruct (is_request_exception e).
      * apply IH in H as (k & Hk & _ & ->). exists (S k). simpl.
        rewrite <- app_assoc. repeat split; lia.
      * injection H as _ <-. exists 1%nat. simpl. repeat split; lia.
Qed.

Lemma _get_public_ip_trace W tr r tr' :
  _get_public_ip W tr = (r, tr') ->
  exists k, (1 <= k <= 3)%nat /\ tr' = tr ++ sweep k.
Proof.
  intros H. apply for_endpoints_trace in H as (k & Hk & Hk' & ->).
  exists k. split; [|reflexivity]. split; [apply Hk'; discriminate | exact Hk].
Qed.

Lemma geolocate_run W tr ip :
  geolocate ip W tr =
  (match geocoder_ip_reply W tr ip with
   | Ok g =>
       match ok g, latlng g with
       | true, Some (lat, lng) => Ok (lat, lng, city_or_placeholder (city g))
       | _, _ => Raise (geolocation_error ip)
       end
   | Raise e => Raise e
   end, tr ++ [GeocoderIp ip]).
Proof.
  unfold geolocate, bind, geocoder_ip, ret, raise.
  destruct (geocoder_ip_reply W tr ip) as [g|e]; [|reflexivity].
  destruct (ok g), (latlng g) as [[lat lng]|]; reflexivity.
Qed.

Lemma geolocate_trace W tr ip r tr' :
  geolocate ip W tr = (r, tr') -> tr' = tr ++ [GeocoderIp ip].
Proof. rewrite geolocate_run. congruence. Qed.

(** What [_fetch_precip_prob] makes of the reply to its request. *)
Lemma _fetch_precip_prob_run W tr lat lng :
  _fetch_precip_prob lat lng W tr =
  (match requests_get_reply W tr (forecast_url lat lng) 10 with
   | Raise e => Raise e
   | Ok r =>
       match raise_for_status r with
       | Raise e => Raise e
       | Ok _ =>
           match resp_json r with
           | Raise e => Raise e
           | Ok data => read_sample data
           end
       end
   end, tr ++ [HttpGet (forecast_url lat lng) 10]).
Proof.
  unfold _fetch_precip_prob, bind, requests_get, lift.
  destruct (requests_get_reply W tr (forecast_url lat lng) 10) as [r|e];
    [|reflexivity].
  destruct (raise_for_status r) as [[]|e]; [|reflexivity].
  destruct (resp_json r) as [data|e]; [|reflexivity].
  destruct (read_sample data); reflexivity.
Qed.

(** The weather lookup always returns a dictionary, after one request. *)
Lemma weather_lookup_run W tr ip city lat lng threshold :
  weather_lookup ip city lat lng threshold W tr =
  (Ok match fst (_fetch_precip_prob lat lng W tr) with
      | Ok wx => success_record ip city lat lng threshold wx
      | Raise e =>
          if is_request_exception e
          then error_record (lit "Failed to fetch weather data: " ++ exn_str e)
          else error_record (exn_str e)
      end,
   tr ++ [HttpGet (forecast_url lat lng) 10]).
Proof.
  unfold weather_lookup, try_except, bind, ret, any_exception.
  destruct (_fetch_precip_prob lat lng W tr) as [[wx|e] tr'] eqn:E;
    rewrite _fetch_precip_prob_run in E; injection E as _ <-; cbn [fst].
  - reflexivity.
  - destruct (is_request_exception e); reflexivity.
Qed.

(** The decision tree of [check_for_rain], step by step. *)
Lemma check_for_rain_run W tr ip threshold :
  check_for_rain ip threshold W tr =
  let ip0 := strip (or_empty ip) in
  if nonempty ip0 then
    match geolocate ip0 W tr with
    | (Ok (lat, lng, city), tr1) =>
        weather_lookup ip0 city lat lng threshold W tr1
    | (Raise e1, tr1) =>
        match _get_public_ip W tr1 with
        | (Raise e2, tr2) =>
            (Ok (error_record
                   (exn_str e1 ++ lit "; fallback to public IP failed: "
                      ++ exn_str e2)), tr2)
        | (Ok auto, tr2) =>
            match geolocate auto W tr2 with
            | (Raise e2, tr3) =>
                (Ok (error_record
                       (exn_str e1 ++ lit "; fallback to public IP failed: "
                          ++ exn_str e2)), tr3)
            | (Ok (lat, lng, city), tr3) =>
                weather_lookup auto city lat lng threshold W tr3
            end
        end
    end
  else
    match _get_public_ip W tr with
    | (Raise e, tr1) =>
        (Ok (error_record (lit "Could not determine public IP: " ++ exn_str e)),
         tr1)
    | (Ok auto, tr1) =>
        match geolocate auto W tr1 with
        | (Raise e1, tr2) => (Ok (error_record (exn_str e1)), tr2)
        | (Ok (lat, lng, city), tr2) =>
            weather_lookup auto city lat lng threshold W tr2
        end
    end.
Proof.
  unfold check_for_rain. cbv zeta.
  destruct (nonempty (strip (or_empty ip))); cbn [negb].
  - unfold bind at 1. unfold try_except at 1. unfold ret at 1.
    unfold bind at 1. unfold try_except at 1. unfold bind at 1.
    destruct (geolocate (strip (or_empty ip)) W tr) as [[[[lat lng] city]|e1] tr1].
    + reflexivity.
    + unfold any_exception at 1. cbn [negb].
      unfold try_except at 1. unfold bind at 1.
      destruct (_get_public_ip W tr1) as [[auto|e2] tr2].
      * unfold bind at 1.
        destruct (geolocate auto W tr2) as [[[[lat lng] city]|e2] tr3];
          reflexivity.
      * reflexivity.
  - unfold bind at 1. unfold try_except at 1. unfold bind at 1.
    destruct (_get_public_ip W tr) as [[auto|e] tr1].
    + unfold ret at 1. unfold bind at 1. unfold try_except at 1.
      unfold bind at 1.
      destruct (geolocate auto W tr1) as [[[[lat lng] city]|e1] tr2];
        reflexivity.
    + reflexivity.
Qed.

(** ** Result dictionaries *)

(** Two different literals are different keys. *)
Ltac key_neq :=
  let H := fresh in intros H; vm_compute in H; discriminate H.

Ltac key_in :=
  repeat first [apply list_elem_of_here | apply list_elem_of_further].

Lemma error_record_error msg :
  error_record msg !! lit "error" = Some (VStr msg).
Proof. apply lookup_singleton_eq. Qed.

Lemma error_record_other msg k :
  k <> lit "error" -> error_record msg !! k = None.
Proof. intros H. apply lookup_singleton_ne. congruence. Qed.

Section SuccessRecord.
Variables (ip city : str) (lat lng : float) (threshold : Z) (wx : sample).
Let d := success_record ip city lat lng threshold wx.

Ltac field :=
  subst d; unfold success_record; cbv zeta;
  destruct (truthy (times wx));
  repeat (rewrite lookup_insert_ne by key_neq);
  first [apply lookup_insert_eq | apply lookup_empty].

Lemma success_record_error : d !! lit "error" = None.
Proof. field. Qed.

Lemma success_record_ip : d !! lit "ip" = Some (VStr ip).
Proof. field. Qed.

Lemma success_record_location : d !! lit "location" = Some (VStr city).
Proof. field. Qed.

Lemma success_record_lat : d !! lit "lat" = Some (VFloat lat).
Proof. field. Qed.

Lemma success_record_lng : d !! lit "lng" = Some (VFloat lng).
Proof. field. Qed.

Lemma success_record_rain :
  d !! lit "rain" = Some (VBool (prob wx >? threshold)).
Proof. field. Qed.

Lemma success_record_chance :
  d !! lit "precipitation_chance" = Some (VInt (prob wx)).
Proof. field. Qed.

Lemma success_record_threshold :
  d !! lit "threshold" = Some (VInt threshold).
Proof. field. Qed.

Lemma success_record_message :
  d !! lit "message" = Some (VStr (message (prob wx) threshold city)).
Proof. field. Qed.

Lemma success_record_hour_sample :
  d !! lit "hour_sample" = if truthy (times wx) then Some (times wx) else None.
Proof.
  subst d; unfold success_record; cbv zeta.
  destruct (truthy (times wx)); [apply lookup_insert_eq|].
  repeat (rewrite lookup_insert_ne by key_neq). apply lookup_empty.
Qed.

Lemma success_record_keys k :
  is_Some (d !! k) ->
  k ∈ [lit "ip"; lit "location"; lit "lat"; lit "lng"; lit "rain";
       lit "precipitation_chance"; lit "threshold"; lit "message";
       lit "hour_sample"].
Proof.
  intros [v Hv]. subst d. unfold success_record in Hv. cbv zeta in Hv.
  destruct (truthy (times wx));
    repeat (apply lookup_insert_Some in Hv as [[<- _]|[_ Hv]]; [key_in|]);
    rewrite lookup_empty in Hv; discriminate Hv.
Qed.

Lemma success_record_is_success : is_success_record d.
Proof.
  unfold is_success_record.
  split; [apply success_record_error|].
  split; [eexists; apply success_record_ip|].
  split; [eexists; apply success_record_location|].
  split; [eexists; apply success_record_lat|].
  split; [eexists; apply success_record_lng|].
  split; [eexists; apply success_record_rain|].
  split; [eexists; apply success_record_chance|].
  split; [eexists; apply success_record_threshold|].
  split; [eexists; apply success_record_message|].
  apply success_record_keys.
Qed.

End SuccessRecord.

Lemma error_record_is_error msg : is_error_record (error_record msg).
Proof. exists msg. reflexivity. Qed.

Lemma error_not_success d : is_error_record d -> ~ is_success_record d.
Proof.
  intros [msg ->] [H _]. change (error_record msg !! lit "error" = None) in H.
  rewrite error_record_error in H. discriminate H.
Qed.

(** ** Traces *)

Lemma geolocations_app tr1 tr2 :
  geolocations (tr1 ++ tr2) = geolocations tr1 ++ geolocations tr2.
Proof. apply omap_app. Qed.

Lemma discovery_requests_app tr1 tr2 :
  discovery_requests (tr1 ++ tr2)
  = discovery_requests tr1 ++ discovery_requests tr2.
Proof. apply omap_app. Qed.

Lemma forecast_requests_app tr1 tr2 :
  forecast_requests (tr1 ++ tr2)
  = forecast_requests tr1 ++ forecast_requests tr2.
Proof. apply omap_app. Qed.

Lemma sweep_observed k :
  geolocations (sweep k) = []
  /\ forecast_requests (sweep k) = []
  /\ discovery_requests (sweep k) = take k endpoints.
Proof.
  unfold sweep. induction (take k endpoints) as [|u l (IH1 & IH2 & IH3)].
  - repeat split.
  - repeat split; [exact IH1 | exact IH2 |].
    change (u :: discovery_requests (List.map (fun u => HttpGet u 5) l) = u :: l).
    rewrite IH3. reflexivity.
Qed.

Lemma geocoder_call_observed ip :
  geolocations [GeocoderIp ip] = [ip]
  /\ discovery_requests [GeocoderIp ip] = []
  /\ forecast_requests [GeocoderIp ip] = [].
Proof. repeat split. Qed.

Lemma forecast_call_observed url :
  geolocations [HttpGet url 10] = []
  /\ discovery_requests [HttpGet url 10] = []
  /\ forecast_requests [HttpGet url 10] = [url].
Proof. repeat split. Qed.

(** Rewrites the observations of a trace made of geolocations, sweeps and
    forecast requests. *)
Ltac observe :=
  rewrite ?discovery_requests_app, ?geolocations_app, ?forecast_requests_app;
  rewrite ?(proj1 (geocoder_call_observed _)),
          ?(proj1 (proj2 (geocoder_call_observed _))),
          ?(proj2 (proj2 (geocoder_call_observed _))),
          ?(proj1 (forecast_call_observed _)),
          ?(proj1 (proj2 (forecast_call_observed _))),
          ?(proj2 (proj2 (forecast_call_observed _))),
          ?(proj1 (sweep_observed _)),
          ?(proj1 (proj2 (sweep_observed _))),
          ?(proj2 (proj2 (sweep_observed _)));
  rewrite ?app_nil_l, ?app_nil_r.

(** ** Claims *)

(** C8. [_get_public_ip] asks the three endpoints in their fixed order, once
    each: it returns the trimmed text of the first reply whose trimmed text
    is not empty, having passed over every earlier endpoint that failed
    with a [RequestException] or answered nothing; when all three are
    passed over it raises the discovery error. The trace shows each
    endpoint asked once, up to and including the one that answered. *)
Theorem discovery_first_answer_wins W tr :
  endpoints = [lit "https://api.ipify.org"; lit "https://ipinfo.io/ip";
               lit "https://icanhazip.com"]
  /\ (forall k r, (k < 3)%nat ->
        (forall j, (j < k)%nat -> skipped (reply_at W tr j) = true) ->
        reply_at W tr k = Ok r -> strip (text r) <> [] ->
        _get_public_ip W tr = (Ok (strip (text r)), tr ++ sweep (S k)))
  /\ ((forall j, (j < 3)%nat -> skipped (reply_at W tr j) = true) ->
        _get_public_ip W tr = (Raise discovery_error, tr ++ sweep 3)).
Proof.
  split; [reflexivity|]. split.
  - intros k r Hk Hskip Hr Hne. unfold _get_public_ip, endpoints.
    destruct k as [|[|[|k]]]; [| | |lia].
    + unfold reply_at, sweep in Hr. simpl in Hr. rewrite app_nil_r in Hr.
      rewrite for_endpoints_cons, (try_endpoint_answer _ _ _ _ Hr Hne).
      reflexivity.
    + pose proof (Hskip 0%nat ltac:(lia)) as H0.
      unfold reply_at, sweep in H0, Hr. simpl in H0, Hr.
      rewrite app_nil_r in H0.
      rewrite for_endpoints_cons, (try_endpoint_skipped _ _ _ H0).
      rewrite for_endpoints_cons, (try_endpoint_answer _ _ _ _ Hr Hne).
      rewrite <- app_assoc. reflexivity.
    + pose proof (Hskip 0%nat ltac:(lia)) as H0.
      pose proof (Hskip 1%nat ltac:(lia)) as H1.
      unfold reply_at, sweep in H0, H1, Hr. simpl in H0, H1, Hr.
      rewrite app_nil_r in H0.
      rewrite for_endpoints_cons, (try_endpoint_skipped _ _ _ H0).
      rewrite for_endpoints_cons, (try_endpoint_skipped _ _ _ H1).
      rewrite <- app_assoc. cbn [app].
      rewrite for_endpoints_cons, (try_endpoint_answer _ _ _ _ Hr Hne).
      rewrite <- app_assoc. reflexivity.
  - intros Hskip. unfold _get_public_ip, endpoints.
    pose proof (Hskip 0%nat ltac:(lia)) as H0.
    pose proof (Hskip 1%nat ltac:(lia)) as H1.
    pose proof (Hskip 2%nat ltac:(lia)) as H2.
    unfold reply_at, sweep in H0, H1, H2. simpl in H0, H1, H2.
    rewrite app_nil_r in H0.
    rewrite for_endpoints_cons, (try_endpoint_skipped _ _ _ H0).
    rewrite for_endpoints_cons, (try_endpoint_skipped _ _ _ H1).
    rewrite <- app_assoc. cbn [app].
    rewrite for_endpoints_cons, (try_endpoint_skipped _ _ _ H2).
    rewrite <- app_assoc. reflexivity.
Qed.

(** C9. Given the provider's answer [g] for [ip], [geolocate] succeeds
    exactly when [g.ok] holds and [g.latlng] is not null; it then returns
    the coordinates, with the placeholder "your area" for an omitted city.
    Otherwise it raises the error whose message names [ip]. *)
Theorem geolocate_ok_iff W tr ip g :
  geocoder_ip_reply W tr ip = Ok g ->
  ((exists loc, fst (geolocate ip W tr) = Ok loc)
     <-> ok g = true /\ latlng g <> None)
  /\ (forall lat lng, ok g = true -> latlng g = Some (lat, lng) ->
        fst (geolocate ip W tr) = Ok (lat, lng, city_or_placeholder (city g)))
  /\ (ok g = false \/ latlng g = None ->
        fst (geolocate ip W tr)
        = Raise (Exn RuntimeError (lit "Could not geolocate IP " ++ ip ++ lit ".")))
  /\ (city g = None \/ city g = Some [] ->
        city_or_placeholder (city g) = lit "your area")
  /\ (forall c, city g = Some c -> c <> [] -> city_or_placeholder (city g) = c).
Proof.
  intros Hg. rewrite geolocate_run, Hg. cbn [fst].
  split; [split|split; [|split; [|split]]].
  - intros [loc H]. split.
    + destruct (ok g); [reflexivity|discriminate H].
    + intros Hn. rewrite Hn in H. destruct (ok g); discriminate H.
  - intros [Hok Hll]. rewrite Hok.
    destruct (latlng g) as [[lat lng]|]; [eauto | congruence].
  - intros lat lng -> ->. reflexivity.
  - intros [-> | ->]; [reflexivity|]. destruct (ok g); reflexivity.
  - intros [-> | ->]; reflexivity.
  - intros c -> Hc. simpl. apply nonempty_true in Hc. rewrite Hc. reflexivity.
Qed.

Lemma check_for_rain_blank W tr ip threshold :
  strip (or_empty ip) = [] ->
  check_for_rain ip threshold W tr =
  match _get_public_ip W tr with
  | (Raise e, tr1) =>
      (Ok (error_record (lit "Could not determine public IP: " ++ exn_str e)),
       tr1)
  | (Ok auto, tr1) =>
      match geolocate auto W tr1 with
      | (Raise e1, tr2) => (Ok (error_record (exn_str e1)), tr2)
      | (Ok (lat, lng, city), tr2) =>
          weather_lookup auto city lat lng threshold W tr2
      end
  end.
Proof. intros H. rewrite check_for_rain_run. cbv zeta. rewrite H. reflexivity. Qed.

Lemma _get_public_ip_observed W r tr :
  _get_public_ip W [] = (r, tr) ->
  geolocations tr = [] /\ forecast_requests tr = []
  /\ exists k, (1 <= k <= 3)%nat /\ discovery_requests tr = take k endpoints.
Proof.
  intros H. apply _get_public_ip_trace in H as (k & Hk & ->). simpl.
  destruct (sweep_observed k) as (H1 & H2 & H3). eauto.
Qed.

(** C4. When the trimmed [ip] is blank and the discovery of the public IP
    fails with cause [e], the result is the error record "Could not
    determine public IP: <cause>", and the run ends with the discovery: the
    trace holds no geolocation and no forecast request. *)
Theorem blank_ip_discovery_failure W ip threshold e tr :
  strip (or_empty ip) = [] ->
  _get_public_ip W [] = (Raise e, tr) ->
  check_for_rain ip threshold W [] =
    (Ok {[ lit "error" := VStr (lit "Could not determine public IP: " ++ exn_str e) ]},
     tr)
  /\ geolocations tr = [] /\ forecast_requests tr = [].
Proof.
  intros Hblank Hd. rewrite (check_for_rain_blank _ _ _ _ Hblank), Hd.
  split; [reflexivity|].
  apply _get_public_ip_observed in Hd as (H1 & H2 & _). auto.
Qed.

(** C2. When the trimmed [ip] is blank, the discovery returns [auto] and the
    geolocation of [auto] fails with [e1], the result is the error record
    whose message is [str(e1)], and the failed geolocation is the last call
    of the run: one discovery, one geolocation, no forecast request. *)
Theorem autodetected_ip_no_fallback W ip threshold auto tr1 e1 tr2 :
  strip (or_empty ip) = [] ->
  _get_public_ip W [] = (Ok auto, tr1) ->
  geolocate auto W tr1 = (Raise e1, tr2) ->
  check_for_rain ip threshold W [] =
    (Ok {[ lit "error" := VStr (exn_str e1) ]}, tr2)
  /\ tr2 = tr1 ++ [GeocoderIp auto]
  /\ geolocations tr2 = [auto]
  /\ forecast_requests tr2 = []
  /\ exists k, (1 <= k <= 3)%nat /\ discovery_requests tr2 = take k endpoints.
Proof.
  intros Hblank Hd Hg. rewrite (check_for_rain_blank _ _ _ _ Hblank), Hd, Hg.
  split; [reflexivity|].
  apply geolocate_trace in Hg as ->. split; [reflexivity|].
  apply _get_public_ip_observed in Hd as (H1 & H2 & k & Hk & H3).
  rewrite geolocations_app, forecast_requests_app, discovery_requests_app.
  rewrite H1, H2, H3. simpl. rewrite app_nil_r. eauto.
Qed.

(** C10. An [ip] that is [None] or made of whitespace only is normalised to
    the empty string: the call behaves as the call with [ip = ""], it
    returns a dictionary (it does not raise), and its first call is the
    request to the first discovery endpoint. *)
Theorem blank_ip_autodetects W ip threshold :
  ip = None \/ (exists s, ip = Some s /\ Forall (fun c => py_isspace c = true) s) ->
  strip (or_empty ip) = []
  /\ check_for_rain ip threshold W [] = check_for_rain (Some []) threshold W []
  /\ exists d tr,
       check_for_rain ip threshold W [] =
         (Ok d, HttpGet (lit "https://api.ipify.org") 5 :: tr).
Proof.
  intros Hip.
  assert (Hblank : strip (or_empty ip) = []).
  { destruct Hip as [-> | (s & -> & Hs)]; [reflexivity|].
    simpl. destruct (nonempty s); [apply strip_blank, Hs | reflexivity]. }
  split; [exact Hblank|]. split.
  - rewrite (check_for_rain_blank _ _ _ _ Hblank).
    rewrite (check_for_rain_blank W [] (Some [])); reflexivity.
  - rewrite (check_for_rain_blank _ _ _ _ Hblank).
    destruct (_get_public_ip W []) as [[auto|e] tr1] eqn:Hd;
      apply _get_public_ip_trace in Hd as (k & Hk & ->);
      (destruct k as [|k]; [lia|]); simpl.
    + rewrite geolocate_run.
      destruct (geocoder_ip_reply _ _ _) as [g|e1]; [|eauto].
      destruct (ok g), (latlng g) as [[lat lng]|]; eauto.
      rewrite weather_lookup_run. eauto.
    + eauto.
Qed.

(** ** The weather lookup *)

Lemma read_sample_missing data :
  probabilities_missing data -> read_sample data = Raise missing_probabilities.
Proof.
  intros (dd & -> & [Hh | (hh & Hh & [Hp | Hp])]);
    unfold read_sample; simpl; rewrite Hh; simpl.
  - rewrite !lookup_empty. reflexivity.
  - rewrite Hp. reflexivity.
  - rewrite Hp. reflexivity.
Qed.

Lemma read_sample_inv data wx :
  read_sample data = Ok wx ->
  exists hourly probs ts p0,
    py_get data (lit "hourly") (VDict ∅) = Ok hourly
    /\ py_get hourly (lit "precipitation_probability") (VList []) = Ok probs
    /\ py_get hourly (lit "time") (VList []) = Ok ts
    /\ truthy probs = true
    /\ py_first probs = Ok p0
    /\ py_int p0 = Ok (prob wx)
    /\ (if truthy ts then py_slice3 ts = Ok (times wx)
        else times wx = VList []).
Proof.
  unfold read_sample. intros H.
  destruct (py_get data _ _) as [hourly|] eqn:E1; [|discriminate H].
  destruct (py_get hourly (lit "precipitation_probability") _) as [probs|] eqn:E2;
    [|discriminate H].
  destruct (py_get hourly (lit "time") _) as [ts|] eqn:E3; [|discriminate H].
  destruct (truthy probs) eqn:Hp; [|discriminate H]. cbn [negb] in H.
  destruct (py_first probs) as [p0|] eqn:E4; [|discriminate H].
  destruct (py_int p0) as [p|] eqn:E5; [|discriminate H].
  exists hourly, probs, ts, p0.
  destruct (truthy ts).
  - destruct (py_slice3 ts) as [sl|]; [|discriminate H].
    injection H as <-. auto 10.
  - injection H as <-. auto 10.
Qed.

Lemma raise_for_status_error r :
  400 <= status_code r < 600 ->
  raise_for_status r = Raise (Exn RequestException (http_error_msg r))
  /\ http_error_msg r <> [].
Proof.
  intros H. unfold raise_for_status.
  assert (Hne : nonempty (http_error_msg r) = true).
  { unfold http_error_msg.
    destruct (Z.leb_spec 400 (status_code r)); [|lia].
    destruct (Z.ltb_spec (status_code r) 500); cbn [andb].
    - unfold str_of_int.
      destruct (NilZero.string_of_int (Z.to_int (status_code r))); reflexivity.
    - destruct (Z.leb_spec 500 (status_code r)); [|lia].
      destruct (Z.ltb_spec (status_code r) 600); [|lia]. cbn [andb].
      unfold str_of_int.
      destruct (NilZero.string_of_int (Z.to_int (status_code r))); reflexivity. }
  rewrite Hne. split; [reflexivity|]. apply nonempty_true, Hne.
Qed.

Lemma raise_for_status_pass r :
  ~ 400 <= status_code r < 600 -> raise_for_status r = Ok tt.
Proof.
  intros H. unfold raise_for_status, http_error_msg.
  destruct (Z.leb_spec 400 (status_code r)),
           (Z.ltb_spec (status_code r) 500),
           (Z.leb_spec 500 (status_code r)),
           (Z.ltb_spec (status_code r) 600); cbn [andb]; try lia; reflexivity.
Qed.

(** The runs of [check_for_rain]: an error record before any forecast
    request, or the weather lookup for a resolved location. *)
Lemma check_for_rain_cases W ip threshold :
  (exists msg tr,
      check_for_rain ip threshold W [] = (Ok (error_record msg), tr)
      /\ forecast_requests tr = [])
  \/ (exists ip' city lat lng tr0,
        check_for_rain ip threshold W [] =
          weather_lookup ip' city lat lng threshold W tr0
        /\ forecast_requests tr0 = []).
Proof.
  rewrite check_for_rain_run. cbv zeta.
  destruct (nonempty (strip (or_empty ip))).
  - destruct (geolocate _ W []) as [[[[lat lng] city]|e1] tr1] eqn:Hg1;
      apply geolocate_trace in Hg1 as ->.
    { right. eauto 10. }
    destruct (_get_public_ip W _) as [[auto|e2] tr2] eqn:Hd;
      apply _get_public_ip_trace in Hd as (k & Hk & ->);
      destruct (sweep_observed k) as (_ & Hs & _).
    + destruct (geolocate auto W _) as [[[[lat lng] city]|e2] tr3] eqn:Hg2;
        apply geolocate_trace in Hg2 as ->.
      * right. do 5 eexists. split; [reflexivity|].
        rewrite !forecast_requests_app, Hs. reflexivity.
      * left. do 2 eexists. split; [reflexivity|].
        rewrite !forecast_requests_app, Hs. reflexivity.
    + left. do 2 eexists. split; [reflexivity|].
      rewrite !forecast_requests_app, Hs. reflexivity.
  - destruct (_get_public_ip W []) as [[auto|e] tr1] eqn:Hd;
      apply _get_public_ip_observed in Hd as (_ & Hs & _).
    + destruct (geolocate auto W _) as [[[[lat lng] city]|e1] tr2] eqn:Hg;
        apply geolocate_trace in Hg as ->.
      * right. do 5 eexists. split; [reflexivity|].
        rewrite forecast_requests_app, Hs. reflexivity.
      * left. do 2 eexists. split; [reflexivity|].
        rewrite forecast_requests_app, Hs. reflexivity.
    + left. eauto.
Qed.

(** A run that ends with a forecast request is a weather lookup that
    started where that request was made. *)
Lemma check_for_rain_forecast W ip threshold d tr0 url :
  check_for_rain ip threshold W [] = (Ok d, tr0 ++ [HttpGet url 10]) ->
  exists ip' city lat lng,
    url = forecast_url lat lng
    /\ weather_lookup ip' city lat lng threshold W tr0
       = (Ok d, tr0 ++ [HttpGet url 10]).
Proof.
  intros H.
  destruct (check_for_rain_cases W ip threshold)
    as [(msg & tr & Hc & Hf) | (ip' & city & lat & lng & tr1 & Hc & Hf)];
    rewrite Hc in H.
  - injection H as _ ->. rewrite forecast_requests_app in Hf.
    simpl in Hf. destruct (forecast_requests tr0); discriminate Hf.
  - exists ip', city, lat, lng. rewrite weather_lookup_run in H.
    apply run_ok_inj in H as [Hd Htr]. apply app_inj_tail in Htr as [-> Hu].
    injection Hu as <-. split; [reflexivity|].
    rewrite weather_lookup_run, Hd. reflexivity.
Qed.

(** A run without an ["error"] is a successful fetch turned into a success
    record. *)
Lemma check_for_rain_success W ip threshold d tr :
  check_for_rain ip threshold W [] = (Ok d, tr) ->
  d !! lit "error" = None ->
  exists ip' city lat lng tr0 wx,
    _fetch_precip_prob lat lng W tr0 = (Ok wx, tr)
    /\ tr = tr0 ++ [HttpGet (forecast_url lat lng) 10]
    /\ d = success_record ip' city lat lng threshold wx.
Proof.
  intros H Hne.
  destruct (check_for_rain_cases W ip threshold)
    as [(msg & tr' & Hc & Hf) | (ip' & city & lat & lng & tr0 & Hc & Hf)];
    rewrite Hc in H.
  - apply run_ok_inj in H as [<- _].
    rewrite error_record_error in Hne. discriminate Hne.
  - rewrite weather_lookup_run in H. apply run_ok_inj in H as [Hd Htr].
    exists ip', city, lat, lng, tr0.
    destruct (_fetch_precip_prob lat lng W tr0) as [[wx|e] tr'] eqn:Hf'.
    + pose proof Hf' as Hf''. rewrite _fetch_precip_prob_run in Hf''.
      injection Hf'' as _ <-. cbn [fst] in Hd. exists wx. subst. auto.
    + cbn [fst] in Hd. subst d.
      destruct (is_request_exception e);
        rewrite error_record_error in Hne; discriminate Hne.
Qed.

(** C7. Every call returns a dictionary, never an exception, and the
    dictionary is of exactly one of two shapes: the error record
    [{"error": msg}] alone, or a success record with all eight fields and
    no ["error"]. *)
Theorem result_is_error_xor_success W ip threshold :
  exists d tr,
    check_for_rain ip threshold W [] = (Ok d, tr)
    /\ ((is_error_record d /\ ~ is_success_record d)
        \/ (is_success_record d /\ ~ is_error_record d)).
Proof.
  destruct (check_for_rain_cases W ip threshold)
    as [(msg & tr & Hc & _) | (ip' & city & lat & lng & tr0 & Hc & _)];
    rewrite Hc.
  - exists (error_record msg), tr. split; [reflexivity|]. left.
    split; [apply error_record_is_error | apply error_not_success, error_record_is_error].
  - rewrite weather_lookup_run. do 2 eexists. split; [reflexivity|].
    destruct (fst (_fetch_precip_prob lat lng W tr0)) as [wx|e].
    + right. split; [apply success_record_is_success|].
      intros He. apply (error_not_success _ He), success_record_is_success.
    + left. destruct (is_request_exception e);
        (split; [apply error_record_is_error
                | apply error_not_success, error_record_is_error]).
Qed.

(** C3. In a run that ends in a success record, the weather fetch returned
    a sample whose probability [p] is the reported chance, and the ["rain"]
    field is [p > threshold]: true above the threshold, false at or below
    it, so false when [p] equals the threshold. *)
Theorem rain_is_strictly_above_threshold W ip threshold d tr :
  check_for_rain ip threshold W [] = (Ok d, tr) ->
  d !! lit "error" = None ->
  exists lat lng tr0 wx,
    _fetch_precip_prob lat lng W tr0 = (Ok wx, tr)
    /\ d !! lit "precipitation_chance" = Some (VInt (prob wx))
    /\ d !! lit "threshold" = Some (VInt threshold)
    /\ d !! lit "rain" = Some (VBool (prob wx >? threshold))
    /\ (prob wx > threshold -> d !! lit "rain" = Some (VBool true))
    /\ (prob wx <= threshold -> d !! lit "rain" = Some (VBool false))
    /\ (prob wx = threshold -> d !! lit "rain" = Some (VBool false)).
Proof.
  intros H Hne.
  destruct (check_for_rain_success _ _ _ _ _ H Hne)
    as (ip' & city & lat & lng & tr0 & wx & Hf & _ & ->).
  exists lat, lng, tr0, wx. split; [exact Hf|].
  rewrite success_record_chance, success_record_threshold, success_record_rain.
  repeat split; intros Hp; do 2 f_equal; rewrite Z.gtb_ltb.
  - apply Z.ltb_lt. lia.
  - apply Z.ltb_ge. lia.
  - apply Z.ltb_ge. lia.
Qed.

(** C6. In a success record the key ["hour_sample"] is present exactly when
    the sample of the weather fetch has a non-empty sequence of times, and
    it then holds that sequence; when the hourly times of the document are
    a list, the sequence is its first three elements, in order, and is
    non-empty exactly when the list is. *)
Theorem hour_sample_iff_timestamps W ip threshold d tr :
  check_for_rain ip threshold W [] = (Ok d, tr) ->
  d !! lit "error" = None ->
  exists lat lng tr0 wx,
    _fetch_precip_prob lat lng W tr0 = (Ok wx, tr)
    /\ (is_Some (d !! lit "hour_sample") <-> truthy (times wx) = true)
    /\ (forall v, d !! lit "hour_sample" = Some v -> v = times wx)
    /\ (forall r data hourly ts,
          requests_get_reply W tr0 (forecast_url lat lng) 10 = Ok r ->
          resp_json r = Ok data ->
          py_get data (lit "hourly") (VDict ∅) = Ok hourly ->
          py_get hourly (lit "time") (VList []) = Ok (VList ts) ->
          times wx = VList (take 3 ts)
          /\ (length (take 3 ts) <= 3)%nat
          /\ (truthy (times wx) = true <-> ts <> [])).
Proof.
  intros H Hne.
  destruct (check_for_rain_success _ _ _ _ _ H Hne)
    as (ip' & city & lat & lng & tr0 & wx & Hf & _ & ->).
  exists lat, lng, tr0, wx. split; [exact Hf|].
  rewrite success_record_hour_sample.
  split; [|split].
  - destruct (truthy (times wx)); split; intros Hs; first [done | by eexists].
  - intros v Hv. destruct (truthy (times wx)); congruence.
  - intros r data hourly ts Hr Hj Hh Ht.
    rewrite _fetch_precip_prob_run, Hr in Hf.
    destruct (raise_for_status r) as [[]|]; [|discriminate Hf].
    rewrite Hj in Hf. injection Hf as Hf.
    apply read_sample_inv in Hf
      as (hourly' & probs & ts' & p0 & Hh' & _ & Ht' & _ & _ & _ & Hts).
    rewrite Hh in Hh'. injection Hh' as <-.
    rewrite Ht in Ht'. injection Ht' as <-.
    assert (Hw : times wx = VList (take 3 ts)).
    { destruct ts as [|t ts]; simpl in Hts; [exact Hts|].
      injection Hts as <-. reflexivity. }
    rewrite Hw. split; [reflexivity|]. split.
    + rewrite length_take. lia.
    + destruct ts; simpl; split; congruence.
Qed.

(** C5 (amended). A run that ends with the forecast request classifies the
    reply: a [RequestException] raised by the request, or a reply whose
    status is between 400 and 599, gives the error record "Failed to fetch
    weather data: <cause>"; a reply of another status whose document has no
    hourly probabilities gives the error record with just "Weather data
    missing precipitation probabilities."; and in a success record the
    reported chance is [int] of the first element of the hourly
    probabilities. *)
Theorem weather_failures_classified W ip threshold d tr0 url :
  check_for_rain ip threshold W [] = (Ok d, tr0 ++ [HttpGet url 10]) ->
  (exists lat lng, url = forecast_url lat lng)
  /\ (forall e,
        requests_get_reply W tr0 url 10 = Raise e ->
        is_request_exception e = true ->
        d = {[ lit "error" :=
                 VStr (lit "Failed to fetch weather data: " ++ exn_str e) ]})
  /\ (forall r,
        requests_get_reply W tr0 url 10 = Ok r ->
        400 <= status_code r < 600 ->
        d = {[ lit "error" :=
                 VStr (lit "Failed to fetch weather data: " ++ http_error_msg r) ]}
        /\ http_error_msg r <> [])
  /\ (forall r data,
        requests_get_reply W tr0 url 10 = Ok r ->
        ~ 400 <= status_code r < 600 ->
        resp_json r = Ok data ->
        probabilities_missing data ->
        d = {[ lit "error" :=
                 VStr (lit "Weather data missing precipitation probabilities.") ]})
  /\ (d !! lit "error" = None ->
      exists r data hourly probs p0 p,
        requests_get_reply W tr0 url 10 = Ok r
        /\ resp_json r = Ok data
        /\ py_get data (lit "hourly") (VDict ∅) = Ok hourly
        /\ py_get hourly (lit "precipitation_probability") (VList []) = Ok probs
        /\ py_first probs = Ok p0
        /\ py_int p0 = Ok p
        /\ d !! lit "precipitation_chance" = Some (VInt p)).
Proof.
  intros H.
  apply check_for_rain_forecast in H as (ip' & city & lat & lng & -> & H).
  rewrite weather_lookup_run, _fetch_precip_prob_run in H. cbn [fst] in H.
  apply run_ok_inj in H as [H _].
  split; [eauto|]. split; [|split; [|split]].
  - intros e He Hreq. rewrite He, Hreq in H. subst d. reflexivity.
  - intros r Hr Hs. rewrite Hr in H.
    destruct (raise_for_status_error r Hs) as [Hrs Hm].
    rewrite Hrs in H. subst d. split; [reflexivity | exact Hm].
  - intros r data Hr Hs Hj Hmiss. rewrite Hr in H.
    rewrite (raise_for_status_pass r Hs), Hj in H.
    rewrite (read_sample_missing data Hmiss) in H. subst d. reflexivity.
  - intros Hne.
    destruct (requests_get_reply W tr0 (forecast_url lat lng) 10)
      as [r|e] eqn:Hr.
    2: { subst d. destruct (is_request_exception e);
           rewrite error_record_error in Hne; discriminate Hne. }
    destruct (raise_for_status r) as [[]|e].
    2: { subst d. destruct (is_request_exception e);
           rewrite error_record_error in Hne; discriminate Hne. }
    destruct (resp_json r) as [data|e] eqn:Hj.
    2: { subst d. destruct (is_request_exception e);
           rewrite error_record_error in Hne; discriminate Hne. }
    destruct (read_sample data) as [wx|e] eqn:Hs.
    2: { subst d. destruct (is_request_exception e);
           rewrite error_record_error in Hne; discriminate Hne. }
    apply read_sample_inv in Hs
      as (hourly & probs & ts & p0 & Hh & Hp & _ & _ & H0 & Hi & _).
    exists r, data, hourly, probs, p0, (prob wx). subst d.
    rewrite success_record_chance. repeat split; assumption || reflexivity.
Qed.

(** C1. When the trimmed [ip] is not blank and its geolocation fails with
    [e1], the run makes one fallback: one discovery of the public IP and,
    when it returns [auto], one geolocation of [auto]. If the discovery or
    that geolocation fails with [e2], the result is the error record
    [str(e1) + "; fallback to public IP failed: " + str(e2)]; if both
    succeed the run goes on to the weather lookup with [auto], and a
    success record has [auto] as its ["ip"]. *)
Theorem supplied_ip_single_fallback W ip threshold ip0 e1 tr1 :
  strip (or_empty ip) = ip0 ->
  ip0 <> [] ->
  geolocate ip0 W [] = (Raise e1, tr1) ->
  exists d tr,
    check_for_rain ip threshold W [] = (Ok d, tr)
    /\ (exists k, (1 <= k <= 3)%nat /\ discovery_requests tr = take k endpoints)
    /\ match _get_public_ip W tr1 with
       | (Raise e2, tr2) =>
           d = {[ lit "error" :=
                    VStr (exn_str e1 ++ lit "; fallback to public IP failed: "
                            ++ exn_str e2) ]}
           /\ tr = tr2
           /\ geolocations tr = [ip0]
       | (Ok auto, tr2) =>
           geolocations tr = [ip0; auto]
           /\ match geolocate auto W tr2 with
              | (Raise e2, tr3) =>
                  d = {[ lit "error" :=
                           VStr (exn_str e1
                                   ++ lit "; fallback to public IP failed: "
                                   ++ exn_str e2) ]}
                  /\ tr = tr3
              | (Ok (lat, lng, city), tr3) =>
                  weather_lookup auto city lat lng threshold W tr3 = (Ok d, tr)
                  /\ (d !! lit "error" = None ->
                      d !! lit "ip" = Some (VStr auto))
              end
       end.
Proof.
  intros Hip Hne Hg. rewrite check_for_rain_run. cbv zeta. rewrite Hip.
  apply nonempty_true in Hne. rewrite Hne, Hg.
  apply geolocate_trace in Hg as ->. rewrite app_nil_l.
  destruct (_get_public_ip W [GeocoderIp ip0]) as [[auto|e2] tr2] eqn:Hd;
    apply _get_public_ip_trace in Hd as (k & Hk & ->).
  - destruct (geolocate auto W _) as [[[[lat lng] city]|e2] tr3] eqn:Hg2;
      apply geolocate_trace in Hg2 as ->.
    + rewrite weather_lookup_run. do 2 eexists. split; [reflexivity|].
      observe. split; [eauto|]. split; [reflexivity|].
      split; [reflexivity|].
      destruct (fst (_fetch_precip_prob _ _ _ _)) as [wx|e]; intros He.
      * apply success_record_ip.
      * destruct (is_request_exception e);
          rewrite error_record_error in He; discriminate He.
    + do 2 eexists. split; [reflexivity|].
      observe. split; [eauto|]. split; [reflexivity|]. split; reflexivity.
  - do 2 eexists. split; [reflexivity|].
    observe. split; [eauto|]. split; [reflexivity|]. split; reflexivity.
Qed.

(** * Further properties *)

(** ** Trimming *)

Lemma lstrip_head (s : str) c t : lstrip s = c :: t -> py_isspace c = false.
Proof.
  induction s as [|a s IH]; simpl; [discriminate|].
  destruct (py_isspace a) eqn:Ha; [exact IH|].
  intros H. injection H as <- _. exact Ha.
Qed.

Lemma lstrip_fixed c (t : str) :
  py_isspace c = false -> lstrip (c :: t) = c :: t.
Proof. intros H. simpl. rewrite H. reflexivity. Qed.

Lemma lstrip_idem (s : str) : lstrip (lstrip s) = lstrip s.
Proof.
  destruct (lstrip s) as [|c t] eqn:E; [reflexivity|].
  apply lstrip_fixed, (lstrip_head _ _ _ E).
Qed.

Lemma lstrip_snoc (l : str) c :
  py_isspace c = false -> lstrip (l ++ [c]) = lstrip l ++ [c].
Proof.
  intros H. induction l as [|a l IH]; simpl; [rewrite H; reflexivity|].
  destruct (py_isspace a); [exact IH | reflexivity].
Qed.

Lemma rstrip_cons c (t : str) :
  py_isspace c = false -> rstrip (c :: t) = c :: rstrip t.
Proof.
  intros H. unfold rstrip. simpl rev. rewrite (lstrip_snoc _ _ H).
  apply rev_unit.
Qed.

Lemma rstrip_idem (s : str) : rstrip (rstrip s) = rstrip s.
Proof. unfold rstrip. rewrite rev_involutive, lstrip_idem. reflexivity. Qed.

Lemma strip_idem (s : str) : strip (strip s) = strip s.
Proof.
  unfold strip. destruct (lstrip s) as [|c t] eqn:E; [reflexivity|].
  pose proof (lstrip_head _ _ _ E) as Hc.
  rewrite (rstrip_cons _ _ Hc), (lstrip_fixed _ _ Hc), (rstrip_cons _ _ Hc).
  rewrite rstrip_idem. reflexivity.
Qed.

Lemma strip_head (s : str) c : head (strip s) = Some c -> py_isspace c = false.
Proof.
  unfold strip. destruct (lstrip s) as [|a t] eqn:E; [discriminate|].
  pose proof (lstrip_head _ _ _ E) as Ha.
  rewrite (rstrip_cons _ _ Ha). intros H. injection H as <-. exact Ha.
Qed.

Lemma strip_last (s : str) c : last (strip s) = Some c -> py_isspace c = false.
Proof.
  unfold strip, rstrip.
  destruct (lstrip (rev (lstrip s))) as [|a t] eqn:E; [discriminate|].
  simpl rev. rewrite last_snoc. intros H. injection H as <-.
  exact (lstrip_head _ _ _ E).
Qed.

Lemma strip_or_empty (s : str) : strip (or_empty (Some s)) = strip s.
Proof. destruct s; reflexivity. Qed.

(** ** The loop over the endpoints, for any list *)

(** Endpoints that are passed over are left behind. *)
Lemma for_endpoints_drop urls W tr k :
  (k <= length urls)%nat ->
  (forall j, (j < k)%nat ->
     skipped (requests_get_reply W
                (tr ++ List.map (fun u => HttpGet u 5) (take j urls))
                (nth j urls []) 5) = true) ->
  for_endpoints urls W tr =
  for_endpoints (drop k urls) W
    (tr ++ List.map (fun u => HttpGet u 5) (take k urls)).
Proof.
  revert tr k. induction urls as [|url rest IH]; intros tr k Hk Hskip.
  - destruct k; [|simpl in Hk; lia]. simpl. rewrite app_nil_r. reflexivity.
  - destruct k as [|k]; [simpl; rewrite app_nil_r; reflexivity|].
    pose proof (Hskip 0%nat ltac:(lia)) as H0. simpl in H0.
    rewrite app_nil_r in H0.
    rewrite for_endpoints_cons, (try_endpoint_skipped _ _ _ H0).
    rewrite (IH _ k).
    + simpl. rewrite <- app_assoc. reflexivity.
    + simpl in Hk. lia.
    + intros j Hj. pose proof (Hskip (S j) ltac:(lia)) as HS. simpl in HS.
      rewrite <- app_assoc. exact HS.
Qed.

(** What a run of the loop tells about the replies. *)
Lemma for_endpoints_inv urls W tr res tr' :
  for_endpoints urls W tr = (res, tr') ->
  match res with
  | Ok ip =>
      exists k r, (k < length urls)%nat
        /\ tr' = tr ++ List.map (fun u => HttpGet u 5) (take (S k) urls)
        /\ requests_get_reply W
             (tr ++ List.map (fun u => HttpGet u 5) (take k urls))
             (nth k urls []) 5 = Ok r
        /\ ip = strip (text r) /\ ip <> []
        /\ forall j, (j < k)%nat ->
             skipped (requests_get_reply W
                        (tr ++ List.map (fun u => HttpGet u 5) (take j urls))
                        (nth j urls []) 5) = true
  | Raise e =>
      (e = discovery_error
       /\ tr' = tr ++ List.map (fun u => HttpGet u 5) urls
       /\ forall j, (j < length urls)%nat ->
            skipped (requests_get_reply W
                       (tr ++ List.map (fun u => HttpGet u 5) (take j urls))
                       (nth j urls []) 5) = true)
      \/ (exists k, (k < length urls)%nat
            /\ tr' = tr ++ List.map (fun u => HttpGet u 5) (take (S k) urls)
            /\ requests_get_reply W
                 (tr ++ List.map (fun u => HttpGet u 5) (take k urls))
                 (nth k urls []) 5 = Raise e
            /\ is_request_exception e = false
            /\ forall j, (j < k)%nat ->
                 skipped (requests_get_reply W
                            (tr ++ List.map (fun u => HttpGet u 5) (take j urls))
                            (nth j urls []) 5) = true)
  end.
Proof.
  revert tr. induction urls as [|url rest IH]; intros tr H.
  - simpl in H. unfold raise in H. injection H as <- <-.
    left. simpl. rewrite app_nil_r. repeat split. intros j Hj. lia.
  - rewrite for_endpoints_cons, try_endpoint_run in H.
    assert (Hshift : forall j,
              skipped (requests_get_reply W
                         ((tr ++ [HttpGet url 5])
                            ++ List.map (fun u => HttpGet u 5) (take j rest))
                         (nth j rest []) 5)
              = skipped (requests_get_reply W
                           (tr ++ List.map (fun u => HttpGet u 5)
                                    (take (S j) (url :: rest)))
                           (nth (S j) (url :: rest) []) 5)).
    { intros j. simpl. rewrite <- app_assoc. reflexivity. }
    destruct (requests_get_reply W tr url 5) as [resp|e0] eqn:Hr.
    + destruct (nonempty (strip (text resp))) eqn:Hne.
      * injection H as <- <-. exists 0%nat, resp. simpl.
        rewrite app_nil_r. repeat split; [lia | exact Hr | |].
        -- apply nonempty_true, Hne.
        -- intros j Hj. lia.
      * assert (H0 : skipped (requests_get_reply W (tr ++ []) url 5) = true).
        { rewrite app_nil_r, Hr. simpl. rewrite Hne. reflexivity. }
        apply IH in H. destruct res as [ip|e].
        -- destruct H as (k & r & Hk & -> & Hrk & Hip & Hn & Hsk).
           exists (S k), r. simpl. rewrite <- app_assoc.
           repeat split; [lia | | exact Hip | exact Hn |].
           ++ rewrite <- app_assoc in Hrk. exact Hrk.
           ++ intros [|j] Hj; [exact H0|]. rewrite <- Hshift. apply Hsk. lia.
        -- destruct H as [(-> & -> & Hsk) | (k & Hk & -> & Hrk & He & Hsk)].
           ++ left. simpl. rewrite <- app_assoc. repeat split.
              intros [|j] Hj; [exact H0|]. rewrite <- Hshift. apply Hsk.
              simpl in Hj. lia.
           ++ right. exists (S k). simpl. rewrite <- app_assoc.
              repeat split; [lia | | exact He |].
              ** rewrite <- app_assoc in Hrk. exact Hrk.
              ** intros [|j] Hj; [exact H0|]. rewrite <- Hshift. apply Hsk. lia.
    + destruct (is_request_exception e0) eqn:He0.
      * assert (H0 : skipped (requests_get_reply W (tr ++ []) url 5) = true).
        { rewrite app_nil_r, Hr. exact He0. }
        apply IH in H. destruct res as [ip|e].
        -- destruct H as (k & r & Hk & -> & Hrk & Hip & Hn & Hsk).
           exists (S k), r. simpl. rewrite <- app_assoc.
           repeat split; [lia | | exact Hip | exact Hn |].
           ++ rewrite <- app_assoc in Hrk. exact Hrk.
           ++ intros [|j] Hj; [exact H0|]. rewrite <- Hshift. apply Hsk. lia.
        -- destruct H as [(-> & -> & Hsk) | (k & Hk & -> & Hrk & He & Hsk)].
           ++ left. simpl. rewrite <- app_assoc. repeat split.
              intros [|j] Hj; [exact H0|]. rewrite <- Hshift. apply Hsk.
              simpl in Hj. lia.
           ++ right. exists (S k). simpl. rewrite <- app_assoc.
              repeat split; [lia | | exact He |].
              ** rewrite <- app_assoc in Hrk. exact Hrk.
              ** intros [|j] Hj; [exact H0|]. rewrite <- Hshift. apply Hsk. lia.
      * injection H as <- <-. right. exists 0%nat. simpl.
        rewrite app_nil_r. repeat split; [lia | exact Hr | exact He0 |].
        intros j Hj. lia.
Qed.


(** ** The discovery of the public IP *)

Lemma sweep_snoc k :
  (k < 3)%nat -> sweep k ++ [HttpGet (nth k endpoints []) 5] = sweep (S k).
Proof.
  intros Hk. destruct k as [|[|[|k]]]; [reflexivity | reflexivity | reflexivity | lia].
Qed.

Lemma drop_endpoints k :
  (k < 3)%nat -> drop k endpoints = nth k endpoints [] :: drop (S k) endpoints.
Proof.
  intros Hk. destruct k as [|[|[|k]]]; [reflexivity | reflexivity | reflexivity | lia].
Qed.

(** X1. An exception of a request that is not a [RequestException] is not
    swallowed: when the endpoints before the [k]-th were passed over and
    the request to the [k]-th raises such an exception,
    [_get_public_ip] raises it at once and asks no later endpoint. *)
Theorem discovery_propagates_other_exceptions W tr k e :
  (k < 3)%nat ->
  (forall j, (j < k)%nat -> skipped (reply_at W tr j) = true) ->
  reply_at W tr k = Raise e ->
  is_request_exception e = false ->
  _get_public_ip W tr = (Raise e, tr ++ sweep (S k)).
Proof.
  intros Hk Hskip Hr He. unfold _get_public_ip.
  rewrite (for_endpoints_drop endpoints W tr k);
    [| simpl; lia | exact Hskip].
  rewrite (drop_endpoints k Hk), for_endpoints_cons, try_endpoint_run.
  unfold reply_at, sweep in Hr. rewrite Hr, He.
  rewrite <- app_assoc. f_equal. f_equal. apply (sweep_snoc k Hk).
Qed.

(** X2. Whatever [_get_public_ip] returns is the trimmed text of the reply
    of one endpoint, reached after all earlier endpoints were passed over;
    it is not empty and carries no whitespace at either end. *)
Theorem discovered_ip_is_trimmed_answer W tr ip tr' :
  _get_public_ip W tr = (Ok ip, tr') ->
  ip <> [] /\ strip ip = ip
  /\ (forall c, head ip = Some c \/ last ip = Some c -> py_isspace c = false)
  /\ exists k r,
       (k < 3)%nat /\ tr' = tr ++ sweep (S k)
       /\ reply_at W tr k = Ok r /\ ip = strip (text r)
       /\ forall j, (j < k)%nat -> skipped (reply_at W tr j) = true.
Proof.
  intros H. apply for_endpoints_inv in H
    as (k & r & Hk & -> & Hr & -> & Hne & Hskip).
  split; [exact Hne|]. split; [apply strip_idem|]. split.
  - intros c [Hc | Hc]; [exact (strip_head _ _ Hc) | exact (strip_last _ _ Hc)].
  - exists k, r. repeat split; assumption.
Qed.

(** X3. [_get_public_ip] fails in two ways only: with its own
    [RuntimeError] after all three endpoints were asked and passed over,
    or with the exception, not a [RequestException], that the request to
    one endpoint raised. *)
Theorem discovery_failure_causes W tr e tr' :
  _get_public_ip W tr = (Raise e, tr') ->
  (e = Exn RuntimeError (lit "Could not determine public IP from fallback services.")
   /\ tr' = tr ++ sweep 3
   /\ forall j, (j < 3)%nat -> skipped (reply_at W tr j) = true)
  \/ (exists k, (k < 3)%nat /\ tr' = tr ++ sweep (S k)
        /\ reply_at W tr k = Raise e
        /\ is_request_exception e = false
        /\ forall j, (j < k)%nat -> skipped (reply_at W tr j) = true).
Proof.
  intros H. apply for_endpoints_inv in H
    as [(-> & -> & Hskip) | (k & Hk & -> & Hr & He & Hskip)].
  - left. repeat split. exact Hskip.
  - right. exists k. repeat split; assumption.
Qed.

(** ** The resolution of the location *)

Lemma geolocate_ok_inv W tr ip lat lng c tr' :
  geolocate ip W tr = (Ok (lat, lng, c), tr') ->
  exists g, geocoder_ip_reply W tr ip = Ok g /\ ok g = true
    /\ latlng g = Some (lat, lng) /\ c = city_or_placeholder (city g)
    /\ tr' = tr ++ [GeocoderIp ip].
Proof.
  rewrite geolocate_run. intros H.
  destruct (geocoder_ip_reply W tr ip) as [g|e]; [|discriminate H].
  exists g. destruct (ok g); [|destruct (latlng g) as [[? ?]|]; discriminate H].
  destruct (latlng g) as [[lat' lng']|]; [|discriminate H].
  injection H as <- <- <- <-. repeat split.
Qed.

Lemma city_or_placeholder_nonempty c : city_or_placeholder c <> [].
Proof.
  destruct c as [c|]; simpl; [|discriminate].
  destruct (nonempty c) eqn:Hc; [apply nonempty_true, Hc | discriminate].
Qed.

(** Every run resolves, whatever the threshold, either to an error record
    or to the weather lookup for the answer of the last geolocation. *)
Lemma check_for_rain_resolved W ip :
  exists pre k post,
    (length pre <= 1)%nat /\ (k <= 3)%nat /\ (length post <= 1)%nat
    /\ ((exists msg, forall t,
           check_for_rain ip t W []
           = (Ok (error_record msg), resolution_trace pre k post))
        \/ (exists ip' g lat lng tr_g,
              resolution_trace pre k post = tr_g ++ [GeocoderIp ip']
              /\ geocoder_ip_reply W tr_g ip' = Ok g
              /\ ok g = true /\ latlng g = Some (lat, lng)
              /\ forall t,
                   check_for_rain ip t W []
                   = weather_lookup ip' (city_or_placeholder (city g))
                       lat lng t W (resolution_trace pre k post))).
Proof.
  destruct (nonempty (strip (or_empty ip))) eqn:Hn.
  - destruct (geolocate (strip (or_empty ip)) W [])
      as [[[[lat lng] c]|e1] tr1] eqn:Hg1.
    + apply geolocate_ok_inv in Hg1 as Hi.
      destruct Hi as (g & Hr & Hok & Hll & -> & ->).
      exists [strip (or_empty ip)], 0%nat, [].
      split; [simpl; lia|]. split; [lia|]. split; [simpl; lia|]. right.
      exists (strip (or_empty ip)), g, lat, lng, [].
      split; [reflexivity|]. split; [exact Hr|]. split; [exact Hok|].
      split; [exact Hll|].
      intros t. rewrite check_for_rain_run. cbv zeta. rewrite Hn, Hg1.
      reflexivity.
    + apply geolocate_trace in Hg1 as Ht. subst tr1.
      destruct (_get_public_ip W ([] ++ [GeocoderIp (strip (or_empty ip))]))
        as [[auto|e2] tr2] eqn:Hd.
      * apply _get_public_ip_trace in Hd as Ht.
        destruct Ht as (k & Hk & ->).
        destruct (geolocate auto W
                    (([] ++ [GeocoderIp (strip (or_empty ip))]) ++ sweep k))
          as [[[[lat lng] c]|e2] tr3] eqn:Hg2.
        -- apply geolocate_ok_inv in Hg2 as Hi.
           destruct Hi as (g & Hr & Hok & Hll & -> & ->).
           exists [strip (or_empty ip)], k, [auto].
           assert (HT : (([] ++ [GeocoderIp (strip (or_empty ip))]) ++ sweep k)
                          ++ [GeocoderIp auto]
                        = resolution_trace [strip (or_empty ip)] k [auto]).
           { unfold resolution_trace. cbn [List.map app]. reflexivity. }
           split; [simpl; lia|]. split; [lia|]. split; [simpl; lia|]. right.
           exists auto, g, lat, lng,
             (([] ++ [GeocoderIp (strip (or_empty ip))]) ++ sweep k).
           split; [symmetry; exact HT|]. split; [exact Hr|]. split; [exact Hok|].
           split; [exact Hll|].
           intros t. rewrite check_for_rain_run. cbv zeta.
           rewrite Hn, Hg1, Hd, Hg2, HT. reflexivity.
        -- apply geolocate_trace in Hg2 as Ht. subst tr3.
           exists [strip (or_empty ip)], k, [auto].
           assert (HT : (([] ++ [GeocoderIp (strip (or_empty ip))]) ++ sweep k)
                          ++ [GeocoderIp auto]
                        = resolution_trace [strip (or_empty ip)] k [auto]).
           { unfold resolution_trace. cbn [List.map app]. reflexivity. }
           split; [simpl; lia|]. split; [lia|]. split; [simpl; lia|]. left.
           eexists. intros t. rewrite check_for_rain_run. cbv zeta.
           rewrite Hn, Hg1, Hd, Hg2, HT. reflexivity.
      * apply _get_public_ip_trace in Hd as Ht.
        destruct Ht as (k & Hk & ->).
        exists [strip (or_empty ip)], k, [].
        assert (HT : ([] ++ [GeocoderIp (strip (or_empty ip))]) ++ sweep k
                     = resolution_trace [strip (or_empty ip)] k []).
        { unfold resolution_trace. cbn [List.map app].
          rewrite app_nil_r. reflexivity. }
        split; [simpl; lia|]. split; [lia|]. split; [simpl; lia|]. left.
        eexists. intros t. rewrite check_for_rain_run. cbv zeta.
        rewrite Hn, Hg1, Hd, HT. reflexivity.
  - destruct (_get_public_ip W []) as [[auto|e] tr1] eqn:Hd.
    + apply _get_public_ip_trace in Hd as Ht.
      destruct Ht as (k & Hk & ->).
      destruct (geolocate auto W ([] ++ sweep k))
        as [[[[lat lng] c]|e1] tr2] eqn:Hg.
      * apply geolocate_ok_inv in Hg as Hi.
        destruct Hi as (g & Hr & Hok & Hll & -> & ->).
        exists [], k, [auto].
        assert (HT : ([] ++ sweep k) ++ [GeocoderIp auto]
                     = resolution_trace [] k [auto]).
        { reflexivity. }
        split; [simpl; lia|]. split; [lia|]. split; [simpl; lia|]. right.
        exists auto, g, lat, lng, ([] ++ sweep k).
        split; [reflexivity|]. split; [exact Hr|]. split; [exact Hok|].
      split; [exact Hll|].
        intros t. rewrite check_for_rain_run. cbv zeta.
        rewrite Hn, Hd, Hg. reflexivity.
      * apply geolocate_trace in Hg as Ht. subst tr2.
        exists [], k, [auto].
        split; [simpl; lia|]. split; [lia|]. split; [simpl; lia|]. left.
        eexists. intros t. rewrite check_for_rain_run. cbv zeta.
        rewrite Hn, Hd, Hg. reflexivity.
    + apply _get_public_ip_trace in Hd as Ht.
      destruct Ht as (k & Hk & ->).
      exists [], k, [].
      assert (HT : [] ++ sweep k = resolution_trace [] k []).
      { unfold resolution_trace. cbn [List.map app].
        rewrite app_nil_r. reflexivity. }
      split; [simpl; lia|]. split; [lia|]. split; [simpl; lia|]. left.
      eexists. intros t. rewrite check_for_rain_run. cbv zeta.
      rewrite Hn, Hd, HT. reflexivity.
Qed.


Lemma geocoder_calls_observed (l : list str) :
  geolocations (List.map GeocoderIp l) = l
  /\ discovery_requests (List.map GeocoderIp l) = []
  /\ forecast_requests (List.map GeocoderIp l) = [].
Proof.
  induction l as [|ip l (IH1 & IH2 & IH3)]; [repeat split|].
  split; [|split; assumption].
  change (ip :: geolocations (List.map GeocoderIp l) = ip :: l).
  rewrite IH1. reflexivity.
Qed.

Lemma resolution_trace_observed pre k post :
  geolocations (resolution_trace pre k post) = pre ++ post
  /\ discovery_requests (resolution_trace pre k post) = take k endpoints
  /\ forecast_requests (resolution_trace pre k post) = []
  /\ length (resolution_trace pre k post)
     = (length pre + length (take k endpoints) + length post)%nat.
Proof.
  unfold resolution_trace.
  destruct (geocoder_calls_observed pre) as (Hg1 & Hd1 & Hf1).
  destruct (geocoder_calls_observed post) as (Hg2 & Hd2 & Hf2).
  destruct (sweep_observed k) as (Hg & Hf & Hd).
  rewrite !geolocations_app, !discovery_requests_app, !forecast_requests_app.
  rewrite Hg1, Hd1, Hf1, Hg2, Hd2, Hf2, Hg, Hf, Hd.
  rewrite !length_app, !length_map. unfold sweep. rewrite length_map.
  rewrite app_nil_r. repeat split; lia.
Qed.

(** A successful run: the answer of the last geolocation, the sample of
    the fetch, and the record made of them. *)
Lemma check_for_rain_success_resolved W ip t d tr :
  check_for_rain ip t W [] = (Ok d, tr) ->
  d !! lit "error" = None ->
  exists ip' g lat lng tr_g wx,
    geocoder_ip_reply W tr_g ip' = Ok g
    /\ ok g = true /\ latlng g = Some (lat, lng)
    /\ tr = tr_g ++ [GeocoderIp ip'; HttpGet (forecast_url lat lng) 10]
    /\ _fetch_precip_prob lat lng W (tr_g ++ [GeocoderIp ip']) = (Ok wx, tr)
    /\ d = success_record ip' (city_or_placeholder (city g)) lat lng t wx.
Proof.
  intros H Hne.
  destruct (check_for_rain_resolved W ip)
    as (pre & k & post & _ & _ & _ &
        [(msg & Hc) | (ip' & g & lat & lng & tr_g & Ht & Hr & Hok & Hll & Hc)]).
  - rewrite Hc in H. apply run_ok_inj in H as [<- _].
    rewrite error_record_error in Hne. discriminate Hne.
  - rewrite Hc, Ht, weather_lookup_run in H.
    apply run_ok_inj in H as [Hd Htr].
    exists ip', g, lat, lng, tr_g.
    destruct (_fetch_precip_prob lat lng W (tr_g ++ [GeocoderIp ip']))
      as [[wx|e] tr'] eqn:Hf.
    + pose proof Hf as Hf'. rewrite _fetch_precip_prob_run in Hf'.
      injection Hf' as _ <-. cbn [fst] in Hd. exists wx.
      rewrite <- app_assoc in Htr. cbn [app] in Htr.
      split; [exact Hr|]. split; [exact Hok|]. split; [exact Hll|].
      split; [symmetry; exact Htr|]. split; [|symmetry; exact Hd].
      rewrite <- Htr, <- app_assoc. reflexivity.
    + cbn [fst] in Hd. subst d.
      destruct (is_request_exception e);
        rewrite error_record_error in Hne; discriminate Hne.
Qed.

(** X4. A run makes at most six external calls, in a fixed shape: at most
    one geolocation, then at most one discovery (its endpoints in order,
    each at most once), then at most one geolocation, then at most one
    forecast request, which is the last call. *)
Theorem run_call_budget W ip t :
  exists d tr pre k post fc,
    check_for_rain ip t W [] = (Ok d, tr)
    /\ tr = resolution_trace pre k post ++ fc
    /\ (length pre <= 1)%nat /\ (k <= 3)%nat /\ (length post <= 1)%nat
    /\ (fc = [] \/ exists lat lng, fc = [HttpGet (forecast_url lat lng) 10])
    /\ geolocations tr = pre ++ post
    /\ discovery_requests tr = take k endpoints
    /\ (length (forecast_requests tr) <= 1)%nat
    /\ (length tr <= 6)%nat.
Proof.
  destruct (check_for_rain_resolved W ip)
    as (pre & k & post & Hpre & Hk & Hpost &
        [(msg & Hc) | (ip' & g & lat & lng & tr_g & Ht & Hr & Hok & Hll & Hc)]);
    destruct (resolution_trace_observed pre k post) as (Hg & Hd & Hf & Hlen);
    assert (Hsw : (length (take k endpoints) <= 3)%nat)
      by (rewrite length_take; simpl; lia).
  - exists (error_record msg), (resolution_trace pre k post), pre, k, post, [].
    rewrite app_nil_r, Hg, Hd, Hf, Hlen.
    split; [apply Hc|]. split; [reflexivity|].
    split; [exact Hpre|]. split; [exact Hk|]. split; [exact Hpost|].
    split; [left; reflexivity|]. split; [reflexivity|].
    split; [reflexivity|]. split; [simpl; lia | lia].
  - rewrite (Hc t), weather_lookup_run.
    do 2 eexists. exists pre, k, post, [HttpGet (forecast_url lat lng) 10].
    split; [reflexivity|]. split; [reflexivity|].
    split; [exact Hpre|]. split; [exact Hk|]. split; [exact Hpost|].
    split; [right; eauto|].
    rewrite geolocations_app, discovery_requests_app, forecast_requests_app.
    rewrite Hg, Hd, Hf, !length_app, Hlen.
    observe.
    split; [reflexivity|]. split; [reflexivity|]. split; simpl; lia.
Qed.

(** X5. A supplied [ip] that is located is used as it is, trimmed: the run
    is the geolocation of the trimmed [ip] followed by the forecast
    request, without any request to a discovery endpoint, and a success
    record reports the trimmed [ip]. *)
Theorem supplied_ip_used_as_is W ip t ip0 lat lng c tr1 :
  strip (or_empty ip) = ip0 ->
  ip0 <> [] ->
  geolocate ip0 W [] = (Ok (lat, lng, c), tr1) ->
  exists d,
    check_for_rain ip t W []
    = (Ok d, [GeocoderIp ip0; HttpGet (forecast_url lat lng) 10])
    /\ discovery_requests [GeocoderIp ip0; HttpGet (forecast_url lat lng) 10] = []
    /\ (d !! lit "error" = None ->
        d !! lit "ip" = Some (VStr ip0) /\ d !! lit "location" = Some (VStr c)
        /\ d !! lit "lat" = Some (VFloat lat) /\ d !! lit "lng" = Some (VFloat lng)).
Proof.
  intros Hip Hne Hg. rewrite check_for_rain_run. cbv zeta. rewrite Hip.
  apply nonempty_true in Hne. rewrite Hne, Hg.
  apply geolocate_trace in Hg as ->. rewrite weather_lookup_run.
  eexists. split; [reflexivity|]. split; [reflexivity|].
  destruct (fst (_fetch_precip_prob _ _ _ _)) as [wx|e]; intros He.
  - rewrite success_record_ip, success_record_location, success_record_lat,
      success_record_lng. repeat split.
  - destruct (is_request_exception e);
      rewrite error_record_error in He; discriminate He.
Qed.

(** X6. Whitespace around the supplied [ip] does not matter: the call with
    [ip] is the call with the trimmed [ip]. *)
Theorem surrounding_whitespace_is_ignored W tr (s : str) t :
  check_for_rain (Some s) t W tr = check_for_rain (Some (strip s)) t W tr.
Proof.
  rewrite !check_for_rain_run. cbv zeta.
  rewrite !strip_or_empty, strip_idem. reflexivity.
Qed.

(** X7. The threshold changes the verdict only: two calls that differ in
    the threshold make the same external calls and agree on the error, the
    IP, the location, the coordinates, the chance and the hour sample; and
    rain reported under the higher threshold is rain under the lower. *)
Theorem threshold_only_moves_the_verdict W ip t1 t2 d1 tr1 d2 tr2 :
  check_for_rain ip t1 W [] = (Ok d1, tr1) ->
  check_for_rain ip t2 W [] = (Ok d2, tr2) ->
  tr1 = tr2
  /\ (forall k, k ∈ [lit "error"; lit "ip"; lit "location"; lit "lat";
                     lit "lng"; lit "precipitation_chance"; lit "hour_sample"] ->
        d1 !! k = d2 !! k)
  /\ (t1 <= t2 -> d2 !! lit "rain" = Some (VBool true) ->
      d1 !! lit "rain" = Some (VBool true)).
Proof.
  intros H1 H2.
  destruct (check_for_rain_resolved W ip)
    as (pre & k & post & _ & _ & _ &
        [(msg & Hc) | (ip' & g & lat & lng & tr_g & Ht & Hr & Hok & Hll & Hc)]).
  - rewrite Hc in H1, H2.
    apply run_ok_inj in H1 as [<- <-]. apply run_ok_inj in H2 as [<- <-].
    split; [reflexivity|]. split; [reflexivity|].
    intros _ Hrain. rewrite error_record_other in Hrain by key_neq.
    discriminate Hrain.
  - rewrite Hc, weather_lookup_run in H1, H2.
    apply run_ok_inj in H1 as [<- <-]. apply run_ok_inj in H2 as [<- <-].
    split; [reflexivity|].
    destruct (fst (_fetch_precip_prob _ _ _ _)) as [wx|e].
    + split.
      * intros key Hkey.
        repeat (apply elem_of_cons in Hkey as [-> | Hkey]);
          [| | | | | | | apply elem_of_nil in Hkey; contradiction].
        -- rewrite !success_record_error. reflexivity.
        -- rewrite !success_record_ip. reflexivity.
        -- rewrite !success_record_location. reflexivity.
        -- rewrite !success_record_lat. reflexivity.
        -- rewrite !success_record_lng. reflexivity.
        -- rewrite !success_record_chance. reflexivity.
        -- rewrite !success_record_hour_sample. reflexivity.
      * rewrite !success_record_rain. intros Ht12 Hrain.
        injection Hrain as Hrain. do 2 f_equal.
        rewrite Z.gtb_ltb in Hrain |- *.
        apply Z.ltb_lt in Hrain. apply Z.ltb_lt. lia.
    + split; [reflexivity|]. intros _ Hrain.
      destruct (is_request_exception e);
        rewrite error_record_other in Hrain by key_neq; discriminate Hrain.
Qed.

(** X8. A success record is coherent: its threshold is the caller's, its
    ["rain"] is its chance compared with that threshold, its location is
    never empty, and its message is "Yes" or "No" as ["rain"] says,
    followed by the chance in decimal and the location. *)
Theorem success_record_is_coherent W ip t d tr :
  check_for_rain ip t W [] = (Ok d, tr) ->
  d !! lit "error" = None ->
  exists p c,
    d !! lit "precipitation_chance" = Some (VInt p)
    /\ d !! lit "threshold" = Some (VInt t)
    /\ d !! lit "location" = Some (VStr c) /\ c <> []
    /\ d !! lit "rain" = Some (VBool (p >? t))
    /\ d !! lit "message"
       = Some (VStr ((if p >? t then lit "Yes" else lit "No")
                       ++ lit ", " ++ str_of_int p
                       ++ lit "% chance of rain soon in " ++ c ++ lit ".")).
Proof.
  intros H Hne.
  destruct (check_for_rain_success_resolved _ _ _ _ _ H Hne)
    as (ip' & g & lat & lng & tr_g & wx & _ & _ & _ & _ & _ & ->).
  exists (prob wx), (city_or_placeholder (city g)).
  rewrite success_record_chance, success_record_threshold,
    success_record_location, success_record_rain, success_record_message.
  split; [reflexivity|]. split; [reflexivity|]. split; [reflexivity|].
  split; [apply city_or_placeholder_nonempty|]. split; reflexivity.
Qed.

(** X9. A success record reports the last geolocation: the run ends with
    the geolocation of the reported IP and the forecast request for the
    coordinates the provider gave for it, and the record holds that IP,
    those coordinates and the provider's city or the placeholder. *)
Theorem success_reports_last_geolocation W ip t d tr :
  check_for_rain ip t W [] = (Ok d, tr) ->
  d !! lit "error" = None ->
  exists ip' g lat lng tr_g,
    tr = tr_g ++ [GeocoderIp ip'; HttpGet (forecast_url lat lng) 10]
    /\ geocoder_ip_reply W tr_g ip' = Ok g
    /\ ok g = true /\ latlng g = Some (lat, lng)
    /\ d !! lit "ip" = Some (VStr ip')
    /\ d !! lit "lat" = Some (VFloat lat)
    /\ d !! lit "lng" = Some (VFloat lng)
    /\ d !! lit "location" = Some (VStr (city_or_placeholder (city g))).
Proof.
  intros H Hne.
  destruct (check_for_rain_success_resolved _ _ _ _ _ H Hne)
    as (ip' & g & lat & lng & tr_g & wx & Hr & Hok & Hll & Htr & _ & ->).
  exists ip', g, lat, lng, tr_g.
  rewrite success_record_ip, success_record_lat, success_record_lng,
    success_record_location.
  split; [exact Htr|]. split; [exact Hr|]. split; [exact Hok|].
  split; [exact Hll|]. repeat split.
Qed.


(** ** The fetch of the forecast *)

Lemma py_int_raise v e : py_int v = Raise e -> is_request_exception e = false.
Proof.
  destruct v as [|b|z|f|s|l|dd]; simpl; try (intros H; injection H as <-; reflexivity).
  - discriminate.
  - discriminate.
  - destruct (float_int f); [discriminate|]. intros H. injection H as <-. reflexivity.
  - destruct (int_of_text s); [discriminate|]. intros H. injection H as <-. reflexivity.
Qed.

(** X10. A well-formed reply is read as the code reads it: for a reply
    whose status is not 4xx or 5xx and whose document has an ["hourly"]
    object whose probabilities start with the integer [z],
    [_fetch_precip_prob] returns [z] with the first three hourly times (none
    when the times are absent), after exactly one request; the other
    probabilities and the later times do not count. *)
Theorem fetch_reads_first_probability W tr lat lng r dd hh z rest ts :
  requests_get_reply W tr (forecast_url lat lng) 10 = Ok r ->
  ~ 400 <= status_code r < 600 ->
  resp_json r = Ok (VDict dd) ->
  dd !! lit "hourly" = Some (VDict hh) ->
  hh !! lit "precipitation_probability" = Some (VList (VInt z :: rest)) ->
  hh !! lit "time" = Some (VList ts) \/ (hh !! lit "time" = None /\ ts = []) ->
  _fetch_precip_prob lat lng W tr
  = (Ok {| prob := z; times := VList (take 3 ts) |},
     tr ++ [HttpGet (forecast_url lat lng) 10]).
Proof.
  intros Hr Hs Hj Hh Hp Ht.
  rewrite _fetch_precip_prob_run, Hr, (raise_for_status_pass r Hs), Hj.
  f_equal. unfold read_sample, py_get. rewrite Hh, Hp.
  destruct Ht as [Ht | [Ht ->]]; rewrite Ht; [|reflexivity].
  destruct ts; reflexivity.
Qed.

(** X11. When the first hourly probability cannot be converted by [int]
    (a JSON null, a list, a string that is not a number), the call returns
    the error record whose message is the text of that conversion error,
    without the "Failed to fetch" prefix. *)
Theorem unconvertible_probability_is_reported
  W ip t d tr0 url r dd hh v rest e :
  check_for_rain ip t W [] = (Ok d, tr0 ++ [HttpGet url 10]) ->
  requests_get_reply W tr0 url 10 = Ok r ->
  ~ 400 <= status_code r < 600 ->
  resp_json r = Ok (VDict dd) ->
  dd !! lit "hourly" = Some (VDict hh) ->
  hh !! lit "precipitation_probability" = Some (VList (v :: rest)) ->
  py_int v = Raise e ->
  d = {[ lit "error" := VStr (exn_str e) ]}.
Proof.
  intros H Hr Hs Hj Hh Hp Hi.
  apply check_for_rain_forecast in H as (ip' & c & lat & lng & -> & H).
  rewrite weather_lookup_run, _fetch_precip_prob_run in H. cbn [fst] in H.
  apply run_ok_inj in H as [H _].
  rewrite Hr, (raise_for_status_pass r Hs), Hj in H.
  unfold read_sample, py_get in H. rewrite Hh, Hp in H.
  cbn [truthy negb py_first] in H. rewrite Hi, (py_int_raise _ _ Hi) in H.
  subst d. reflexivity.
Qed.

(** X12. When the body of the reply is not JSON, [r.json()] raising [e],
    the call returns an error record: with the "Failed to fetch weather
    data: " prefix when [e] is a [RequestException], with [str(e)] alone
    otherwise. *)
Theorem undecodable_body_is_reported W ip t d tr0 url r e :
  check_for_rain ip t W [] = (Ok d, tr0 ++ [HttpGet url 10]) ->
  requests_get_reply W tr0 url 10 = Ok r ->
  ~ 400 <= status_code r < 600 ->
  resp_json r = Raise e ->
  d = {[ lit "error" :=
           VStr (if is_request_exception e
                 then lit "Failed to fetch weather data: " ++ exn_str e
                 else exn_str e) ]}.
Proof.
  intros H Hr Hs Hj.
  apply check_for_rain_forecast in H as (ip' & c & lat & lng & -> & H).
  rewrite weather_lookup_run, _fetch_precip_prob_run in H. cbn [fst] in H.
  apply run_ok_inj in H as [H _].
  rewrite Hr, (raise_for_status_pass r Hs), Hj in H. subst d.
  destruct (is_request_exception e); reflexivity.
Qed.

(** X13. A document that is not a JSON object (a list, a string, a number,
    null) is reported with the interpreter's message for the missing [get]
    attribute, as a plain error record. *)
Theorem non_object_document_is_reported W ip t d tr0 url r data :
  check_for_rain ip t W [] = (Ok d, tr0 ++ [HttpGet url 10]) ->
  requests_get_reply W tr0 url 10 = Ok r ->
  ~ 400 <= status_code r < 600 ->
  resp_json r = Ok data ->
  type_of data <> TDict ->
  d = {[ lit "error" :=
           VStr (fault_text (NoAttribute (type_of data) (lit "get"))) ]}.
Proof.
  intros H Hr Hs Hj Hty.
  apply check_for_rain_forecast in H as (ip' & c & lat & lng & -> & H).
  rewrite weather_lookup_run, _fetch_precip_prob_run in H. cbn [fst] in H.
  apply run_ok_inj in H as [H _].
  rewrite Hr, (raise_for_status_pass r Hs), Hj in H. subst d.
  destruct data; try reflexivity. contradiction Hty. reflexivity.
Qed.

(** X14. The run for a blank [ip] whose discovery, geolocation and fetch
    all succeed returns the success record of the discovered IP, the
    location found for it and the sample fetched for its coordinates. *)
Theorem autodetected_success W ip t auto tr1 lat lng c tr2 wx tr3 :
  strip (or_empty ip) = [] ->
  _get_public_ip W [] = (Ok auto, tr1) ->
  geolocate auto W tr1 = (Ok (lat, lng, c), tr2) ->
  _fetch_precip_prob lat lng W tr2 = (Ok wx, tr3) ->
  check_for_rain ip t W [] = (Ok (success_record auto c lat lng t wx), tr3)
  /\ success_record auto c lat lng t wx !! lit "ip" = Some (VStr auto)
  /\ success_record auto c lat lng t wx !! lit "location" = Some (VStr c)
  /\ success_record auto c lat lng t wx !! lit "rain"
     = Some (VBool (prob wx >? t))
  /\ success_record auto c lat lng t wx !! lit "precipitation_chance"
     = Some (VInt (prob wx))
  /\ tr3 = tr1 ++ [GeocoderIp auto; HttpGet (forecast_url lat lng) 10].
Proof.
  intros Hb Hd Hg Hf.
  rewrite (check_for_rain_blank _ _ _ _ Hb), Hd, Hg, weather_lookup_run, Hf.
  cbn [fst].
  apply geolocate_trace in Hg as ->.
  rewrite _fetch_precip_prob_run in Hf. injection Hf as _ <-.
  rewrite success_record_ip, success_record_location, success_record_rain,
    success_record_chance, <- app_assoc.
  repeat split.
Qed.


(** ** The prompt *)

Lemma lit_inj (a b : string) : lit a = lit b -> a = b.
Proof.
  unfold lit. intros H.
  rewrite <- (string_of_list_ascii_of_string a),
          <- (string_of_list_ascii_of_string b).
  f_equal. revert H.
  generalize (list_ascii_of_string a) (list_ascii_of_string b).
  induction l as [|x l IH]; intros [|y l']; simpl; try discriminate;
    [reflexivity|].
  intros H. injection H as Hxy Hl. f_equal; [|exact (IH _ Hl)].
  rewrite <- (ascii_N_embedding x), <- (ascii_N_embedding y), Hxy.
  reflexivity.
Qed.

Lemma to_int_proper z : Z.to_int z <> Decimal.Pos Decimal.Nil
                        /\ Z.to_int z <> Decimal.Neg Decimal.Nil.
Proof.
  destruct z as [|p|p]; simpl; split; try discriminate;
    intros H; injection H as H; exact (Unsigned.to_uint_nonnil p H).
Qed.

(** [str(z)] determines [z]. *)
Lemma str_of_int_inj z z' : str_of_int z = str_of_int z' -> z = z'.
Proof.
  unfold str_of_int. intros H. apply lit_inj in H.
  apply DecimalZ.to_int_inj.
  destruct (to_int_proper z) as [H1 H2], (to_int_proper z') as [H1' H2'].
  apply (f_equal NilZero.int_of_string) in H.
  rewrite (NilZero.isi _ H1 H2), (NilZero.isi _ H1' H2') in H.
  injection H as H. exact H.
Qed.

Lemma string_of_uint_decimal (u : Decimal.uint) :
  Forall decimal_char (lit (NilEmpty.string_of_uint u)).
Proof.
  induction u as [|u IHu|u IHu|u IHu|u IHu|u IHu|u IHu|u IHu|u IHu|u IHu|u IHu];
    unfold lit; simpl; [constructor| ..];
    (constructor; [right; simpl; lia | exact IHu]).
Qed.

Lemma nilzero_string_of_uint_decimal (u : Decimal.uint) :
  Forall decimal_char (lit (NilZero.string_of_uint u)).
Proof.
  destruct u; try apply string_of_uint_decimal.
  unfold lit. simpl. constructor; [right; simpl; lia | constructor].
Qed.

(** [str(z)] is an optional minus sign and decimal digits. *)
Lemma str_of_int_decimal z : Forall decimal_char (str_of_int z).
Proof.
  unfold str_of_int. destruct (Z.to_int z) as [u|u]; simpl.
  - apply nilzero_string_of_uint_decimal.
  - change (lit (String "-" (NilZero.string_of_uint u)))
      with (45%N :: lit (NilZero.string_of_uint u)).
    constructor; [left; reflexivity | apply nilzero_string_of_uint_decimal].
Qed.

(** Two texts cut at the last occurrence of [c] agree part by part. *)
Lemma cut_at_last {A} (c : A) (x1 x2 d1 d2 : list A) :
  x1 ++ c :: d1 = x2 ++ c :: d2 ->
  Forall (fun a => a <> c) d1 -> Forall (fun a => a <> c) d2 ->
  x1 = x2 /\ d1 = d2.
Proof.
  intros H H1 H2. revert x2 H.
  induction x1 as [|a x1 IH]; intros [|b x2] H; simpl in H.
  - injection H as ->. split; reflexivity.
  - injection H as <- ->. apply Forall_app in H1 as [_ H1].
    apply Forall_cons in H1 as [H1 _]. contradiction H1. reflexivity.
  - injection H as -> <-. apply Forall_app in H2 as [_ H2].
    apply Forall_cons in H2 as [H2 _]. contradiction H2. reflexivity.
  - injection H as -> H. destruct (IH _ H) as [-> ->]. split; reflexivity.
Qed.

Lemma rainsoon_cut ip t :
  rainsoon ip t
  = ([10%N] ++ lit "Call the tool `check_for_rain` with ip=" ++ [34%N])
      ++ ((ip ++ [34%N] ++ lit " and threshold")
            ++ 61%N :: (str_of_int t
                          ++ (lit "." ++ [10%N]
                                ++ lit "Return ONLY the tool's raw JSON (no commentary)."
                                ++ [10%N]))).
Proof. unfold rainsoon. rewrite <- !app_assoc. reflexivity. Qed.

(** X15. The prompt determines its arguments: two calls of [rainsoon] that
    give the same text were given the same [ip] and the same threshold. *)
Theorem rainsoon_determines_arguments ip1 t1 ip2 t2 :
  rainsoon ip1 t1 = rainsoon ip2 t2 -> ip1 = ip2 /\ t1 = t2.
Proof.
  rewrite !rainsoon_cut. intros H. apply app_inv_head in H.
  assert (Hno : forall t,
            Forall (fun a => a <> 61%N)
              (str_of_int t
                 ++ (lit "." ++ [10%N]
                       ++ lit "Return ONLY the tool's raw JSON (no commentary)."
                       ++ [10%N]))).
  { intros t. apply Forall_app. split.
    - eapply Forall_impl; [apply str_of_int_decimal|].
      intros a [-> | Ha]; [discriminate | lia].
    - vm_compute. repeat constructor; discriminate. }
  apply cut_at_last in H as [Hx Hd]; [|apply Hno | apply Hno].
  apply app_inv_tail in Hx. apply app_inv_tail in Hd.
  split; [exact Hx | exact (str_of_int_inj _ _ Hd)].
Qed.

End Properties.

(** * The properties at work *)

Import Demo.

(** The first scenario of the specification: a blank [ip], threshold 20,
    discovery of 1.2.3.4 at Testville, a chance of 45. *)
Example scenario_autodetected :
  check_for_rain (Some []) 20 sunny_path [] =
  (Ok (<[ lit "message" := VStr (lit "Yes, 45% chance of rain soon in Testville.") ]>
      (<[ lit "threshold" := VInt 20 ]>
      (<[ lit "precipitation_chance" := VInt 45 ]>
      (<[ lit "rain" := VBool true ]>
      (<[ lit "lng" := VFloat 20 ]>
      (<[ lit "lat" := VFloat 10 ]>
      (<[ lit "location" := VStr (lit "Testville") ]>
      (<[ lit "ip" := VStr (lit "1.2.3.4") ]> ∅)))))))),
   [HttpGet (lit "https://api.ipify.org") 5; GeocoderIp (lit "1.2.3.4");
    forecast_request]).
Proof. reflexivity. Qed.

(** The second scenario of the specification, as an instance of C1: the
    supplied 5.6.7.8 is not located, the discovery returns 9.9.9.9, which
    is located; the chance of 10 is below the threshold of 50 and the
    record carries the discovered IP. *)
Lemma supplied_ip_single_fallback_witness :
  strip (or_empty (Some (lit "5.6.7.8"))) = lit "5.6.7.8"
  /\ lit "5.6.7.8" <> []
  /\ geolocate (lit "5.6.7.8") switched_ip []
     = (Raise (geolocation_error (lit "5.6.7.8")), [GeocoderIp (lit "5.6.7.8")])
  /\ exists d tr,
       check_for_rain (Some (lit "5.6.7.8")) 50 switched_ip [] = (Ok d, tr)
       /\ (exists k, (1 <= k <= 3)%nat /\ discovery_requests tr = take k endpoints)
       /\ geolocations tr = [lit "5.6.7.8"; lit "9.9.9.9"]
       /\ weather_lookup (lit "9.9.9.9") (lit "Quad City") 10 20 50 switched_ip
            [GeocoderIp (lit "5.6.7.8"); HttpGet (lit "https://api.ipify.org") 5;
             GeocoderIp (lit "9.9.9.9")] = (Ok d, tr)
       /\ (d !! lit "error" = None -> d !! lit "ip" = Some (VStr (lit "9.9.9.9"))).
Proof.
  split; [reflexivity|]. split; [discriminate|]. split; [reflexivity|].
  exact (supplied_ip_single_fallback switched_ip (Some (lit "5.6.7.8")) 50
           (lit "5.6.7.8") (geolocation_error (lit "5.6.7.8"))
           [GeocoderIp (lit "5.6.7.8")]
           eq_refl ltac:(discriminate) eq_refl).
Defined.

Example scenario_switched_ip :
  exists d tr,
    check_for_rain (Some (lit "5.6.7.8")) 50 switched_ip [] = (Ok d, tr)
    /\ d !! lit "ip" = Some (VStr (lit "9.9.9.9"))
    /\ d !! lit "rain" = Some (VBool false)
    /\ d !! lit "message"
       = Some (VStr (lit "No, 10% chance of rain soon in Quad City.")).
Proof. do 2 eexists. repeat split; reflexivity. Qed.

(** C2 at work: the address found at the third endpoint is not located. *)
Lemma autodetected_ip_no_fallback_witness :
  strip (or_empty (Some (lit "  " ++ [9%N]))) = []
  /\ _get_public_ip third_endpoint [] = (Ok (lit "203.0.113.7"), sweep 3)
  /\ geolocate (lit "203.0.113.7") third_endpoint (sweep 3)
     = (Raise (geolocation_error (lit "203.0.113.7")),
        sweep 3 ++ [GeocoderIp (lit "203.0.113.7")])
  /\ check_for_rain (Some (lit "  " ++ [9%N])) 20 third_endpoint []
     = (Ok {[ lit "error" := VStr (lit "Could not geolocate IP 203.0.113.7.") ]},
        sweep 3 ++ [GeocoderIp (lit "203.0.113.7")]).
Proof.
  split; [reflexivity|]. split; [reflexivity|]. split; [reflexivity|].
  exact (proj1 (autodetected_ip_no_fallback third_endpoint
                  (Some (lit "  " ++ [9%N])) 20 (lit "203.0.113.7") (sweep 3)
                  (geolocation_error (lit "203.0.113.7"))
                  (sweep 3 ++ [GeocoderIp (lit "203.0.113.7")])
                  eq_refl eq_refl eq_refl)).
Defined.

(** C4 at work: no [ip] and no endpoint within reach. *)
Lemma blank_ip_discovery_failure_witness :
  strip (or_empty None) = []
  /\ _get_public_ip offline [] = (Raise discovery_error, sweep 3)
  /\ check_for_rain None 20 offline []
     = (Ok {[ lit "error" :=
                VStr (lit "Could not determine public IP: Could not determine public IP from fallback services.") ]},
        sweep 3)
  /\ geolocations (sweep 3) = [] /\ forecast_requests (sweep 3) = [].
Proof.
  split; [reflexivity|]. split; [reflexivity|].
  exact (blank_ip_discovery_failure offline None 20 discovery_error (sweep 3)
           eq_refl eq_refl).
Defined.

(** C10 at work: an [ip] of two spaces and a tab. *)
Lemma blank_ip_autodetects_witness :
  Forall (fun c => py_isspace c = true) (lit "  " ++ [9%N])
  /\ strip (or_empty (Some (lit "  " ++ [9%N]))) = []
  /\ check_for_rain (Some (lit "  " ++ [9%N])) 20 third_endpoint []
     = check_for_rain (Some []) 20 third_endpoint []
  /\ exists d tr,
       check_for_rain (Some (lit "  " ++ [9%N])) 20 third_endpoint []
       = (Ok d, HttpGet (lit "https://api.ipify.org") 5 :: tr).
Proof.
  assert (H : Forall (fun c => py_isspace c = true) (lit "  " ++ [9%N])).
  { repeat constructor. }
  split; [exact H|].
  exact (blank_ip_autodetects third_endpoint (Some (lit "  " ++ [9%N])) 20
           (or_intror (ex_intro _ (lit "  " ++ [9%N]) (conj eq_refl H)))).
Defined.

(** The trace and the times of the run in the world [boundary]. *)
Lemma boundary_run :
  check_for_rain (Some (lit "8.8.8.8")) 20 boundary []
  = (Ok (testville 20 20
           (VList [VStr (lit "2024-05-01T00:00"); VStr (lit "2024-05-01T01:00");
                   VStr (lit "2024-05-01T02:00")])),
     [GeocoderIp (lit "8.8.8.8"); forecast_request]).
Proof. reflexivity. Qed.

(** C3 at work: a chance of 20 against a threshold of 20 is no rain. *)
Lemma rain_is_strictly_above_threshold_witness :
  exists d tr,
    check_for_rain (Some (lit "8.8.8.8")) 20 boundary [] = (Ok d, tr)
    /\ d !! lit "error" = None
    /\ d !! lit "precipitation_chance" = Some (VInt 20)
    /\ exists lat lng tr0 wx,
         _fetch_precip_prob lat lng boundary tr0 = (Ok wx, tr)
         /\ d !! lit "precipitation_chance" = Some (VInt (prob wx))
         /\ d !! lit "threshold" = Some (VInt 20)
         /\ d !! lit "rain" = Some (VBool (prob wx >? 20))
         /\ (prob wx > 20 -> d !! lit "rain" = Some (VBool true))
         /\ (prob wx <= 20 -> d !! lit "rain" = Some (VBool false))
         /\ (prob wx = 20 -> d !! lit "rain" = Some (VBool false)).
Proof.
  do 2 eexists. split; [exact boundary_run|]. split; [reflexivity|].
  split; [reflexivity|].
  exact (rain_is_strictly_above_threshold boundary (Some (lit "8.8.8.8")) 20
           _ _ boundary_run eq_refl).
Defined.

(** C6 at work: of four hourly times the record keeps the first three. *)
Lemma hour_sample_iff_timestamps_witness :
  exists d tr,
    check_for_rain (Some (lit "8.8.8.8")) 20 boundary [] = (Ok d, tr)
    /\ d !! lit "error" = None
    /\ d !! lit "hour_sample"
       = Some (VList [VStr (lit "2024-05-01T00:00"); VStr (lit "2024-05-01T01:00");
                      VStr (lit "2024-05-01T02:00")])
    /\ exists lat lng tr0 wx,
         _fetch_precip_prob lat lng boundary tr0 = (Ok wx, tr)
         /\ (is_Some (d !! lit "hour_sample") <-> truthy (times wx) = true)
         /\ (forall v, d !! lit "hour_sample" = Some v -> v = times wx)
         /\ (forall r data hourly ts,
               requests_get_reply boundary tr0 (forecast_url lat lng) 10 = Ok r ->
               resp_json r = Ok data ->
               py_get data (lit "hourly") (VDict ∅) = Ok hourly ->
               py_get hourly (lit "time") (VList []) = Ok (VList ts) ->
               times wx = VList (take 3 ts)
               /\ (length (take 3 ts) <= 3)%nat
               /\ (truthy (times wx) = true <-> ts <> [])).
Proof.
  do 2 eexists. split; [exact boundary_run|]. split; [reflexivity|].
  split; [reflexivity|].
  exact (hour_sample_iff_timestamps boundary (Some (lit "8.8.8.8")) 20
           _ _ boundary_run eq_refl).
Defined.

(** C5 at work: a reply of status 503 is a failure to fetch; a document
    without probabilities is reported as such. *)
Lemma weather_failures_classified_witness :
  check_for_rain (Some (lit "8.8.8.8")) 20 unavailable []
  = (Ok {[ lit "error" :=
             VStr (lit "Failed to fetch weather data: 503 Server Error: Service Unavailable for url: https://api.open-meteo.com/v1/forecast") ]},
     [GeocoderIp (lit "8.8.8.8")] ++ [forecast_request])
  /\ (forall r,
        requests_get_reply unavailable [GeocoderIp (lit "8.8.8.8")]
          (forecast_url (10 : float) (20 : float)) 10 = Ok r ->
        400 <= status_code r < 600 ->
        ({[ lit "error" :=
              VStr (lit "Failed to fetch weather data: 503 Server Error: Service Unavailable for url: https://api.open-meteo.com/v1/forecast") ]} : dict)
        = {[ lit "error" :=
               VStr (lit "Failed to fetch weather data: " ++ http_error_msg r) ]}
        /\ http_error_msg r <> [])
  /\ probabilities_missing (VDict {[ lit "hourly" := VDict ∅ ]})
  /\ check_for_rain (Some (lit "8.8.8.8")) 20 no_probabilities []
     = (Ok {[ lit "error" :=
                VStr (lit "Weather data missing precipitation probabilities.") ]},
        [GeocoderIp (lit "8.8.8.8")] ++ [forecast_request]).
Proof.
  assert (Hm : probabilities_missing (VDict {[ lit "hourly" := VDict ∅ ]})).
  { eexists. split; [reflexivity|]. right. eexists.
    split; [reflexivity|]. left. reflexivity. }
  split; [reflexivity|]. split.
  - exact (proj1 (proj2 (proj2
             (weather_failures_classified unavailable (Some (lit "8.8.8.8")) 20
                _ [GeocoderIp (lit "8.8.8.8")] _ eq_refl)))).
  - split; [exact Hm|].
    pose proof (weather_failures_classified no_probabilities
                  (Some (lit "8.8.8.8")) 20
                  (match fst (check_for_rain (Some (lit "8.8.8.8")) 20
                                no_probabilities []) with
                   | Ok d => d
                   | Raise _ => ∅
                   end)
                  [GeocoderIp (lit "8.8.8.8")] _ eq_refl)
      as (_ & _ & _ & H & _).
    rewrite <- (H _ _ eq_refl ltac:(simpl; lia) eq_refl Hm). reflexivity.
Defined.

(** C5 as stated fails: a forecast reply of status 300, which is not a 2xx
    status, is read as data and the call returns a success record, not the
    error record "Failed to fetch weather data: ...". *)
Lemma forecast_status_300_is_read :
  requests_get_reply multiple_choices [GeocoderIp (lit "8.8.8.8")]
    (forecast_url (10 : float) (20 : float)) 10 = Ok choices_reply
  /\ status_code choices_reply = 300
  /\ ~ 200 <= status_code choices_reply < 300
  /\ check_for_rain (Some (lit "8.8.8.8")) 20 multiple_choices []
     = (Ok (testville 20 45 (VList [])),
        [GeocoderIp (lit "8.8.8.8");
         HttpGet (forecast_url (10 : float) (20 : float)) 10])
  /\ testville 20 45 (VList []) !! lit "error" = None
  /\ testville 20 45 (VList []) !! lit "precipitation_chance" = Some (VInt 45)
  /\ forall cause,
       testville 20 45 (VList [])
       <> {[ lit "error" :=
               VStr (lit "Failed to fetch weather data: " ++ cause) ]}.
Proof.
  split; [reflexivity|]. split; [reflexivity|]. split; [simpl; lia|].
  split; [reflexivity|]. split; [reflexivity|]. split; [reflexivity|].
  intros cause H.
  apply (f_equal (fun m : dict => m !! lit "error")) in H.
  rewrite lookup_singleton_eq in H.
  unfold testville in H. rewrite success_record_error in H. discriminate H.
Qed.

(** C8 at work: the first endpoint times out, the second answers blanks,
    the third answers; and a world where none answers. *)
Lemma discovery_first_answer_wins_witness :
  (forall j, (j < 2)%nat -> skipped (reply_at third_endpoint [] j) = true)
  /\ _get_public_ip third_endpoint [] = (Ok (lit "203.0.113.7"), sweep 3)
  /\ (forall j, (j < 3)%nat -> skipped (reply_at offline [] j) = true)
  /\ _get_public_ip offline [] = (Raise discovery_error, sweep 3).
Proof.
  assert (H2 : forall j, (j < 2)%nat ->
                 skipped (reply_at third_endpoint [] j) = true).
  { intros [|[|j]] Hj; [reflexivity | reflexivity | lia]. }
  assert (H3 : forall j, (j < 3)%nat -> skipped (reply_at offline [] j) = true).
  { intros [|[|[|j]]] Hj; [reflexivity | reflexivity | reflexivity | lia]. }
  split; [exact H2|]. split.
  - refine (proj1 (proj2 (discovery_first_answer_wins third_endpoint []))
              2%nat _ _ H2 eq_refl _); [lia | discriminate].
  - split; [exact H3|].
    exact (proj2 (proj2 (discovery_first_answer_wins offline [])) H3).
Defined.

(** C9 at work: an answer without coordinates names the IP in its error; an
    answer with coordinates and no city is placed in "your area". *)
Lemma geolocate_ok_iff_witness :
  geocoder_ip_reply switched_ip [] (lit "5.6.7.8")
  = Ok {| ok := false; latlng := None; city := None |}
  /\ fst (geolocate (lit "5.6.7.8") switched_ip [])
     = Raise (Exn RuntimeError (lit "Could not geolocate IP 5.6.7.8."))
  /\ city_or_placeholder None = lit "your area".
Proof.
  split; [reflexivity|].
  pose proof (geolocate_ok_iff switched_ip [] (lit "5.6.7.8")
                {| ok := false; latlng := None; city := None |} eq_refl)
    as (_ & _ & Hfail & Hcity & _).
  split; [exact (Hfail (or_introl eq_refl)) | exact (Hcity (or_introl eq_refl))].
Defined.

(** * The further properties at work *)

(** X1 at work: the second endpoint's request fails outside the
    [RequestException] family; the third endpoint is not asked. *)
Lemma discovery_propagates_other_exceptions_witness :
  (forall j, (j < 1)%nat -> skipped (reply_at crashing [] j) = true)
  /\ reply_at crashing [] 1 = Raise invalid_url
  /\ is_request_exception invalid_url = false
  /\ _get_public_ip crashing [] = (Raise invalid_url, sweep 2).
Proof.
  assert (H : forall j, (j < 1)%nat -> skipped (reply_at crashing [] j) = true).
  { intros [|j] Hj; [reflexivity | lia]. }
  split; [exact H|]. split; [reflexivity|]. split; [reflexivity|].
  exact (discovery_propagates_other_exceptions crashing [] 1 invalid_url
           ltac:(lia) H eq_refl eq_refl).
Defined.

(** X2 at work: the address found at the third endpoint. *)
Lemma discovered_ip_is_trimmed_answer_witness :
  _get_public_ip third_endpoint [] = (Ok (lit "203.0.113.7"), sweep 3)
  /\ lit "203.0.113.7" <> [] /\ strip (lit "203.0.113.7") = lit "203.0.113.7"
  /\ (forall c, head (lit "203.0.113.7") = Some c
                \/ last (lit "203.0.113.7") = Some c ->
        py_isspace c = false)
  /\ exists k r,
       (k < 3)%nat /\ sweep 3 = [] ++ sweep (S k)
       /\ reply_at third_endpoint [] k = Ok r
       /\ lit "203.0.113.7" = strip (text r)
       /\ forall j, (j < k)%nat -> skipped (reply_at third_endpoint [] j) = true.
Proof.
  split; [reflexivity|].
  exact (discovered_ip_is_trimmed_answer third_endpoint []
           (lit "203.0.113.7") (sweep 3) eq_refl).
Defined.

(** X3 at work: no endpoint within reach. *)
Lemma discovery_failure_causes_witness :
  _get_public_ip offline [] = (Raise discovery_error, sweep 3)
  /\ ((discovery_error
       = Exn RuntimeError (lit "Could not determine public IP from fallback services.")
       /\ sweep 3 = [] ++ sweep 3
       /\ forall j, (j < 3)%nat -> skipped (reply_at offline [] j) = true)
      \/ (exists k, (k < 3)%nat /\ sweep 3 = [] ++ sweep (S k)
            /\ reply_at offline [] k = Raise discovery_error
            /\ is_request_exception discovery_error = false
            /\ forall j, (j < k)%nat -> skipped (reply_at offline [] j) = true)).
Proof.
  split; [reflexivity|].
  exact (discovery_failure_causes offline [] discovery_error (sweep 3) eq_refl).
Defined.

(** X5 at work: 8.8.8.8, supplied between blanks, is located. *)
Lemma supplied_ip_used_as_is_witness :
  strip (or_empty (Some (lit " 8.8.8.8 "))) = lit "8.8.8.8"
  /\ lit "8.8.8.8" <> []
  /\ geolocate (lit "8.8.8.8") boundary []
     = (Ok (10, 20, lit "Testville"), [GeocoderIp (lit "8.8.8.8")])
  /\ exists d,
       check_for_rain (Some (lit " 8.8.8.8 ")) 20 boundary []
       = (Ok d, [GeocoderIp (lit "8.8.8.8");
                 HttpGet (forecast_url (10 : float) (20 : float)) 10])
       /\ discovery_requests
            [GeocoderIp (lit "8.8.8.8");
             HttpGet (forecast_url (10 : float) (20 : float)) 10] = []
       /\ (d !! lit "error" = None ->
           d !! lit "ip" = Some (VStr (lit "8.8.8.8"))
           /\ d !! lit "location" = Some (VStr (lit "Testville"))
           /\ d !! lit "lat" = Some (VFloat (10 : float))
           /\ d !! lit "lng" = Some (VFloat (20 : float))).
Proof.
  split; [reflexivity|]. split; [discriminate|]. split; [reflexivity|].
  exact (supplied_ip_used_as_is boundary (Some (lit " 8.8.8.8 ")) 20
           (lit "8.8.8.8") 10 20 (lit "Testville") [GeocoderIp (lit "8.8.8.8")]
           eq_refl ltac:(discriminate) eq_refl).
Defined.

(** The run in the world [boundary] under another threshold. *)
Lemma boundary_run_low :
  check_for_rain (Some (lit "8.8.8.8")) 5 boundary []
  = (Ok (testville 5 20
           (VList [VStr (lit "2024-05-01T00:00"); VStr (lit "2024-05-01T01:00");
                   VStr (lit "2024-05-01T02:00")])),
     [GeocoderIp (lit "8.8.8.8"); forecast_request]).
Proof. reflexivity. Qed.

(** X7 at work: thresholds 5 and 20 against a chance of 20. *)
Lemma threshold_only_moves_the_verdict_witness :
  exists d1 d2 tr,
    check_for_rain (Some (lit "8.8.8.8")) 5 boundary [] = (Ok d1, tr)
    /\ check_for_rain (Some (lit "8.8.8.8")) 20 boundary [] = (Ok d2, tr)
    /\ d1 !! lit "rain" = Some (VBool true)
    /\ d2 !! lit "rain" = Some (VBool false)
    /\ (forall k, k ∈ [lit "error"; lit "ip"; lit "location"; lit "lat";
                       lit "lng"; lit "precipitation_chance"; lit "hour_sample"] ->
          d1 !! k = d2 !! k).
Proof.
  do 3 eexists. split; [exact boundary_run_low|]. split; [exact boundary_run|].
  split; [reflexivity|]. split; [reflexivity|].
  exact (proj1 (proj2 (threshold_only_moves_the_verdict boundary
                         (Some (lit "8.8.8.8")) 5 20 _ _ _ _
                         boundary_run_low boundary_run))).
Defined.

(** X8 at work. *)
Lemma success_record_is_coherent_witness :
  exists d tr,
    check_for_rain (Some (lit "8.8.8.8")) 20 boundary [] = (Ok d, tr)
    /\ d !! lit "error" = None
    /\ d !! lit "message"
       = Some (VStr (lit "No, 20% chance of rain soon in Testville."))
    /\ exists p c,
         d !! lit "precipitation_chance" = Some (VInt p)
         /\ d !! lit "threshold" = Some (VInt 20)
         /\ d !! lit "location" = Some (VStr c) /\ c <> []
         /\ d !! lit "rain" = Some (VBool (p >? 20))
         /\ d !! lit "message"
            = Some (VStr ((if p >? 20 then lit "Yes" else lit "No")
                            ++ lit ", " ++ str_of_int p
                            ++ lit "% chance of rain soon in " ++ c ++ lit ".")).
Proof.
  do 2 eexists. split; [exact boundary_run|]. split; [reflexivity|].
  split; [reflexivity|].
  exact (success_record_is_coherent boundary (Some (lit "8.8.8.8")) 20
           _ _ boundary_run eq_refl).
Defined.

(** X9 at work. *)
Lemma success_reports_last_geolocation_witness :
  exists d tr,
    check_for_rain (Some (lit "8.8.8.8")) 20 boundary [] = (Ok d, tr)
    /\ d !! lit "error" = None
    /\ exists ip' g lat lng tr_g,
         tr = tr_g ++ [GeocoderIp ip'; HttpGet (forecast_url lat lng) 10]
         /\ geocoder_ip_reply boundary tr_g ip' = Ok g
         /\ ok g = true /\ latlng g = Some (lat, lng)
         /\ d !! lit "ip" = Some (VStr ip')
         /\ d !! lit "lat" = Some (VFloat lat)
         /\ d !! lit "lng" = Some (VFloat lng)
         /\ d !! lit "location" = Some (VStr (city_or_placeholder (city g))).
Proof.
  do 2 eexists. split; [exact boundary_run|]. split; [reflexivity|].
  exact (success_reports_last_geolocation boundary (Some (lit "8.8.8.8")) 20
           _ _ boundary_run eq_refl).
Defined.

(** X10 at work: of the probabilities 20 and 30 and of four times the
    fetch keeps 20 and the first three times. *)
Lemma fetch_reads_first_probability_witness :
  _fetch_precip_prob (10 : float) (20 : float) boundary [GeocoderIp (lit "8.8.8.8")]
  = (Ok {| prob := 20;
           times := VList [VStr (lit "2024-05-01T00:00");
                           VStr (lit "2024-05-01T01:00");
                           VStr (lit "2024-05-01T02:00")] |},
     [GeocoderIp (lit "8.8.8.8")]
       ++ [HttpGet (forecast_url (10 : float) (20 : float)) 10]).
Proof.
  refine (fetch_reads_first_probability boundary [GeocoderIp (lit "8.8.8.8")]
            10 20
            {| status_code := 200; reason := lit "OK"; resp_url := [];
               text := [];
               resp_json := Ok (VDict {[ lit "hourly" := VDict boundary_hourly ]}) |}
            {[ lit "hourly" := VDict boundary_hourly ]} boundary_hourly
            20 [VInt 30]
            [VStr (lit "2024-05-01T00:00"); VStr (lit "2024-05-01T01:00");
             VStr (lit "2024-05-01T02:00"); VStr (lit "2024-05-01T03:00")]
            eq_refl _ eq_refl eq_refl eq_refl (or_introl eq_refl)).
  simpl. lia.
Defined.

(** X11 at work: a null first probability. *)
Lemma unconvertible_probability_is_reported_witness :
  check_for_rain (Some (lit "8.8.8.8")) 20 null_probability []
  = (Ok {[ lit "error" :=
             VStr (lit "int() argument must be a string or a number") ]},
     [GeocoderIp (lit "8.8.8.8")] ++ [forecast_request])
  /\ py_int VNone
     = Raise (Exn BuiltinError (lit "int() argument must be a string or a number"))
  /\ ({[ lit "error" :=
           VStr (lit "int() argument must be a string or a number") ]} : dict)
     = {[ lit "error" :=
            VStr (exn_str (Exn BuiltinError
                             (lit "int() argument must be a string or a number"))) ]}.
Proof.
  split; [reflexivity|]. split; [reflexivity|].
  exact (unconvertible_probability_is_reported null_probability
           (Some (lit "8.8.8.8")) 20 _
           [GeocoderIp (lit "8.8.8.8")] _ _ _ _ VNone [VInt 3] _
           eq_refl eq_refl ltac:(simpl; lia) eq_refl eq_refl eq_refl eq_refl).
Defined.

(** X12 at work: a page that is not JSON, the decoding error being a
    [RequestException]. *)
Lemma undecodable_body_is_reported_witness :
  check_for_rain (Some (lit "8.8.8.8")) 20 not_json []
  = (Ok {[ lit "error" :=
             VStr (lit "Failed to fetch weather data: Expecting value") ]},
     [GeocoderIp (lit "8.8.8.8")] ++ [forecast_request])
  /\ ({[ lit "error" :=
           VStr (lit "Failed to fetch weather data: Expecting value") ]} : dict)
     = {[ lit "error" :=
            VStr (if is_request_exception
                       (Exn RequestException (lit "Expecting value"))
                  then lit "Failed to fetch weather data: "
                         ++ exn_str (Exn RequestException (lit "Expecting value"))
                  else exn_str (Exn RequestException (lit "Expecting value"))) ]}.
Proof.
  split; [reflexivity|].
  exact (undecodable_body_is_reported not_json (Some (lit "8.8.8.8")) 20 _
           [GeocoderIp (lit "8.8.8.8")] _ _
           (Exn RequestException (lit "Expecting value"))
           eq_refl eq_refl ltac:(simpl; lia) eq_refl).
Defined.

(** X13 at work: a JSON list in place of the document. *)
Lemma non_object_document_is_reported_witness :
  check_for_rain (Some (lit "8.8.8.8")) 20 json_list []
  = (Ok {[ lit "error" := VStr (lit "object has no attribute get") ]},
     [GeocoderIp (lit "8.8.8.8")] ++ [forecast_request])
  /\ type_of (VList [VInt 45]) <> TDict
  /\ ({[ lit "error" := VStr (lit "object has no attribute get") ]} : dict)
     = {[ lit "error" :=
            VStr (fault_text (NoAttribute (type_of (VList [VInt 45])) (lit "get"))) ]}.
Proof.
  split; [reflexivity|]. split; [discriminate|].
  exact (non_object_document_is_reported json_list (Some (lit "8.8.8.8")) 20 _
           [GeocoderIp (lit "8.8.8.8")] _ _ (VList [VInt 45])
           eq_refl eq_refl ltac:(simpl; lia) eq_refl ltac:(discriminate)).
Defined.

(** X14 at work: the first scenario of the specification, step by step. *)
Lemma autodetected_success_witness :
  strip (or_empty (Some [])) = []
  /\ _get_public_ip sunny_path [] = (Ok (lit "1.2.3.4"), sweep 1)
  /\ geolocate (lit "1.2.3.4") sunny_path (sweep 1)
     = (Ok (10, 20, lit "Testville"), sweep 1 ++ [GeocoderIp (lit "1.2.3.4")])
  /\ _fetch_precip_prob (10 : float) (20 : float) sunny_path
       (sweep 1 ++ [GeocoderIp (lit "1.2.3.4")])
     = (Ok {| prob := 45; times := VList [] |},
        sweep 1 ++ [GeocoderIp (lit "1.2.3.4"); forecast_request])
  /\ check_for_rain (Some []) 20 sunny_path []
     = (Ok (success_record (lit "1.2.3.4") (lit "Testville") 10 20 20
              {| prob := 45; times := VList [] |}),
        sweep 1 ++ [GeocoderIp (lit "1.2.3.4"); forecast_request]).
Proof.
  split; [reflexivity|]. split; [reflexivity|]. split; [reflexivity|].
  split; [reflexivity|].
  exact (proj1 (autodetected_success sunny_path (Some []) 20 (lit "1.2.3.4")
                  (sweep 1) 10 20 (lit "Testville")
                  (sweep 1 ++ [GeocoderIp (lit "1.2.3.4")])
                  {| prob := 45; times := VList [] |}
                  (sweep 1 ++ [GeocoderIp (lit "1.2.3.4"); forecast_request])
                  eq_refl eq_refl eq_refl eq_refl)).
Defined.

(** The prompt of the docstring's third example. *)
Example rainsoon_example :
  rainsoon (lit "8.8.8.8") 35
  = [10%N] ++ lit "Call the tool `check_for_rain` with ip=" ++ [34%N]
      ++ lit "8.8.8.8" ++ [34%N] ++ lit " and threshold=35." ++ [10%N]
      ++ lit "Return ONLY the tool's raw JSON (no commentary)." ++ [10%N].
Proof. reflexivity. Qed.

(** X15 at work. *)
Lemma rainsoon_determines_arguments_witness :
  rainsoon (lit "8.8.8.8") 35 = rainsoon (lit "8.8.8.8") (30 + 5)
  /\ lit "8.8.8.8" = lit "8.8.8.8" /\ 35 = 30 + 5.
Proof.
  split; [reflexivity|].
  exact (rainsoon_determines_arguments (lit "8.8.8.8") 35 (lit "8.8.8.8")
           (30 + 5) eq_refl).
Defined.
